(** * flask_oauthlib.provider.oauth1: the OAuth1 provider and its request validator

    A shallow embedding of [src/flask_oauthlib/provider/oauth1.py].

    - Python values are an inductive type [PyVal] with Python's truth value
      test; a [dict] with string keys (the Flask configuration, keyword
      arguments) is a [gmap string PyVal].
    - A method is a computation in the monad [M]: it reads and writes a
      [World] (the storage the registered getters read, and the list of the
      calls made so far) and either returns a value or raises an exception.
    - The pieces of oauthlib and Flask the module calls (the server's
      endpoints, [add_params_to_uri], [OAuth1Error.in_uri],
      [_extract_params], the headers of a new response) are section
      variables: the module never defines them, it only calls them. *)

From stdpp Require Import gmap strings list.

Set Warnings "-register-all".

(** ** Data model *)

(** A client, as the docstring of [OAuth1Provider.clientgetter] describes it.
    [default_realms] is optional: [get_default_realms] tests it with
    [hasattr]. *)
Record Client := {
  client_key : string;
  client_secret : string;
  redirect_uris : list string;
  default_realms : option (list string);
}.

(** A request token (returned by the grant getter) or an access token
    (returned by the token getter). The module itself only reads [secret];
    the other attributes are carried as the storage collaborator keeps
    them. *)
Record Token := {
  token_key : string;
  secret : string;
  realms_of : list string;
  verifier : option string;
}.

(** oauthlib's request object, as far as the module touches it: the only
    attribute the module reads and writes is [client]. *)
Record OAuthRequest := {
  request_uri : string;
  request_http_method : string;
  request_body : string;
  request_headers : list (string * string);
  request_client_key : option string;
  request_resource_owner_key : option string;
  client : option Client;
}.

(** [request.client = c] *)
Definition set_client (request : OAuthRequest) (c : option Client) : OAuthRequest :=
  {| request_uri := request_uri request;
     request_http_method := request_http_method request;
     request_body := request_body request;
     request_headers := request_headers request;
     request_client_key := request_client_key request;
     request_resource_owner_key := request_resource_owner_key request;
     client := c |}.

(** Python values that travel through the configuration, the positional and
    keyword arguments of a view and its return value. *)
Inductive PyVal :=
| PyNone
| PyBool (b : bool)
| PyInt (n : Z)
| PyStr (s : string)
| PyTuple (items : list PyVal)
| PyList (items : list PyVal)
| PyRequest (r : OAuthRequest).

(** Python's truth value test ([if x:], [not x]). *)
Definition truthy (v : PyVal) : bool :=
  match v with
  | PyNone => false
  | PyBool b => b
  | PyInt n => negb (n =? 0)%Z
  | PyStr s => negb (String.eqb s "")
  | PyTuple items | PyList items => negb (bool_decide (items = []))%list
  | PyRequest _ => true
  end.

(** The truth value of a getter's result: [None] is false, an object is
    true. *)
Definition found {A} (o : option A) : bool :=
  match o with Some _ => true | None => false end.

(** The exceptions the module can meet. *)
Record OAuth1Error := {
  error : string;
  description : string;
}.

Inductive Exn :=
| NameError (name : string)
| AttributeError (attr : string)
| RuntimeError (msg : string)
| OAuth1Exn (e : OAuth1Error)
| OtherError (msg : string).

Inductive Outcome (A : Type) :=
| Return (a : A)
| Raise (e : Exn).
Arguments Return {A} a.
Arguments Raise {A} e.

(** What a call leaves behind in the world, in order. *)
Inductive Event :=
| ClientGetterCall (client_key : string)
| GrantGetterCall (client_key token : string)
| TokenGetterCall (client_key token : string)
| ServerCall (endpoint : string)
| HandlerCall.

(** ** Name resolution

    A name a function body uses without assigning it is looked up in the
    enclosing functions, then among the module's globals (its imports and
    its top-level definitions, lines 11-27 and 211), then among the
    builtins. *)
Definition module_globals : list string :=
  [ "wraps"; "cached_property"; "request"; "redirect"; "make_response";
    "RequestValidator"; "Server"; "SIGNATURE_HMAC"; "SIGNATURE_RSA";
    "to_unicode"; "add_params_to_uri"; "OAuth1Error"; "log";
    "_extract_params"; "SIGNATURE_METHODS"; "__all__"; "OAuth1Provider";
    "OAuth1RequestValidator" ].

(** The names of Python 2's [__builtin__] module (functions, constants and
    exception classes). *)
Definition python2_builtins : list string :=
  [ "abs"; "all"; "any"; "apply"; "basestring"; "bin"; "bool"; "buffer";
    "bytearray"; "bytes"; "callable"; "chr"; "classmethod"; "cmp"; "coerce";
    "compile"; "complex"; "copyright"; "credits"; "delattr"; "dict"; "dir";
    "divmod"; "enumerate"; "eval"; "execfile"; "exit"; "file"; "filter";
    "float"; "format"; "frozenset"; "getattr"; "globals"; "hasattr"; "hash";
    "help"; "hex"; "id"; "input"; "int"; "intern"; "isinstance";
    "issubclass"; "iter"; "len"; "license"; "list"; "locals"; "long"; "map";
    "max"; "memoryview"; "min"; "next"; "object"; "oct"; "open"; "ord";
    "pow"; "print"; "property"; "quit"; "range"; "raw_input"; "reduce";
    "reload"; "repr"; "reversed"; "round"; "set"; "setattr"; "slice";
    "sorted"; "staticmethod"; "str"; "sum"; "super"; "tuple"; "type";
    "unichr"; "unicode"; "vars"; "xrange"; "zip"; "__import__";
    "True"; "False"; "None"; "Ellipsis"; "NotImplemented"; "__debug__";
    "__doc__"; "__name__"; "__package__";
    "ArithmeticError"; "AssertionError"; "AttributeError"; "BaseException";
    "BufferError"; "BytesWarning"; "DeprecationWarning"; "EOFError";
    "EnvironmentError"; "Exception"; "FloatingPointError"; "FutureWarning";
    "GeneratorExit"; "IOError"; "ImportError"; "ImportWarning";
    "IndentationError"; "IndexError"; "KeyError"; "KeyboardInterrupt";
    "LookupError"; "MemoryError"; "NameError"; "NotImplementedError";
    "OSError"; "OverflowError"; "PendingDeprecationWarning";
    "ReferenceError"; "RuntimeError"; "RuntimeWarning"; "StandardError";
    "StopIteration"; "SyntaxError"; "SyntaxWarning"; "SystemError";
    "SystemExit"; "TabError"; "TypeError"; "UnboundLocalError";
    "UnicodeDecodeError"; "UnicodeEncodeError"; "UnicodeError";
    "UnicodeTranslateError"; "UnicodeWarning"; "UserWarning"; "ValueError";
    "Warning"; "ZeroDivisionError" ].

(** [name_is_bound scope name]: [scope] lists the parameters and the local
    variables of the function and of the functions around it. *)
Definition name_is_bound (scope : list string) (name : string) : bool :=
  existsb (String.eqb name) (scope ++ module_globals ++ python2_builtins).

Section OAuth1.

(** The storage behind the registered getters (a database session, a dict):
    the module never looks inside it. *)
Context {Store : Type}.

Record World := {
  store : Store;
  calls : list Event;
}.

(** ** The monad of method bodies *)
Definition M (A : Type) : Type := World -> Outcome A * World.

#[global] Instance M_ret : MRet M := fun A a w => (Return a, w).

#[global] Instance M_bind : MBind M := fun A B f c w =>
  match c w with
  | (Return a, w') => f a w'
  | (Raise e, w') => (Raise e, w')
  end.

(** [raise e] *)
Definition raise {A} (e : Exn) : M A := fun w => (Raise e, w).

(** [try: body except OAuth1Error as e: handler e] *)
Definition try_except_OAuth1Error {A} (body : M A) (handler : OAuth1Error -> M A) : M A :=
  fun w =>
    match body w with
    | (Raise (OAuth1Exn e), w') => handler e w'
    | r => r
    end.

(** A pure step that may fail, run as a computation. *)
Definition lift {A} (r : Exn + A) : M A :=
  match r with
  | inl e => raise e
  | inr a => mret a
  end.

(** Appends one call to the world's record. *)
Definition record (ev : Event) : M unit :=
  fun w => (Return tt, {| store := store w; calls := calls w ++ [ev] |}).

(** Evaluating a name that is bound nowhere raises [NameError]. The third
    argument is the evidence that the name is unbound in the scope of the
    use: the definition only type-checks where that is so. *)
Definition unbound_name {A} (scope : list string) (name : string)
    (unbound : name_is_bound scope name = false) : M A :=
  raise (NameError name).

(** [log.debug(fmt, *args)], with [log] the logger of
    [flask_oauthlib._utils]: the arguments are evaluated by the caller; the
    logger's output is not part of the model. *)
Definition log_debug (fmt : string) (args : list PyVal) : M unit := mret tt.

(** ** OAuth1RequestValidator *)

Record OAuth1RequestValidator := {
  _clientgetter : Store -> string -> option Client;
  (* access token getter *)
  _tokengetter : Store -> string -> string -> option Token;
  (* request token getter *)
  _grantgetter : Store -> string -> string -> option Token;
  _config : gmap string PyVal;
}.

(** [OAuth1RequestValidator.__init__]: [if not config: config = {}] *)
Definition OAuth1RequestValidator__init__
    (clientgetter : Store -> string -> option Client)
    (tokengetter grantgetter : Store -> string -> string -> option Token)
    (config : option (gmap string PyVal)) : OAuth1RequestValidator :=
  {| _clientgetter := clientgetter;
     _tokengetter := tokengetter;
     _grantgetter := grantgetter;
     _config := match config with
                | Some c => if bool_decide (c = ∅) then ∅ else c
                | None => ∅
                end |}.

(** [self._clientgetter(client_key=client_key)] *)
Definition call_clientgetter (self : OAuth1RequestValidator) (client_key : string)
    : M (option Client) :=
  fun w => (Return (_clientgetter self (store w) client_key),
            {| store := store w; calls := calls w ++ [ClientGetterCall client_key] |}).

(** [self._grantgetter(client_key=client_key, token=token)] *)
Definition call_grantgetter (self : OAuth1RequestValidator) (client_key token : string)
    : M (option Token) :=
  fun w => (Return (_grantgetter self (store w) client_key token),
            {| store := store w; calls := calls w ++ [GrantGetterCall client_key token] |}).

(** [self._tokengetter(client_key=client_key, token=token)] *)
Definition call_tokengetter (self : OAuth1RequestValidator) (client_key token : string)
    : M (option Token) :=
  fun w => (Return (_tokengetter self (store w) client_key token),
            {| store := store w; calls := calls w ++ [TokenGetterCall client_key token] |}).

(** [self._config.get(key, default)] *)
Definition config_get (self : OAuth1RequestValidator) (key : string) (dflt : PyVal) : PyVal :=
  default dflt (_config self !! key).

Definition SIGNATURE_METHODS : PyVal := PyTuple [PyStr "HMAC-SHA1"; PyStr "RSA-SHA1"].

Definition allowed_signature_methods (self : OAuth1RequestValidator) : PyVal :=
  config_get self "OAUTH1_PROVIDER_SIGNATURE_METHODS" SIGNATURE_METHODS.

Definition client_key_length (self : OAuth1RequestValidator) : PyVal :=
  config_get self "OAUTH1_PROVIDER_KEY_LENGTH" (PyTuple [PyInt 20; PyInt 30]).

Definition reqeust_token_length (self : OAuth1RequestValidator) : PyVal :=
  config_get self "OAUTH1_PROVIDER_KEY_LENGTH" (PyTuple [PyInt 20; PyInt 30]).

Definition access_token_length (self : OAuth1RequestValidator) : PyVal :=
  config_get self "OAUTH1_PROVIDER_KEY_LENGTH" (PyTuple [PyInt 20; PyInt 30]).

Definition nonce_length (self : OAuth1RequestValidator) : PyVal :=
  config_get self "OAUTH1_PROVIDER_KEY_LENGTH" (PyTuple [PyInt 20; PyInt 30]).

Definition verifier_length (self : OAuth1RequestValidator) : PyVal :=
  config_get self "OAUTH1_PROVIDER_KEY_LENGTH" (PyTuple [PyInt 20; PyInt 30]).

Definition realms (self : OAuth1RequestValidator) : PyVal :=
  config_get self "OAUTH1_PROVIDER_REALMS" (PyList []).

Definition enforce_ssl (self : OAuth1RequestValidator) : PyVal :=
  config_get self "OAUTH1_PROVIDER_ENFORCE_SSL" (PyBool true).

(** The result is the secret together with the request object as the call
    leaves it ([request.client] may have been assigned). *)
Definition get_client_secret (self : OAuth1RequestValidator) (client_key : string)
    (request : OAuthRequest) : M (string * OAuthRequest) :=
  request ← (if negb (found (client request))
             then c ← call_clientgetter self client_key;
                  mret (set_client request c)
             else mret request);
  match client request with
  | Some c => mret (client_secret c, request)
  | None => mret ("", request)
  end.

Definition dummy_client : string := "dummy_client".

Definition dummy_resource_owner : string := "dummy_resource_owner".

Definition get_request_token_secret (self : OAuth1RequestValidator)
    (client_key token : string) (request : OAuthRequest) : M string :=
  log_debug "Get request token secret of %r for %r" [PyStr token; PyStr client_key];;
  tok ← call_grantgetter self client_key token;
  match tok with
  | Some tok => mret (secret tok)
  | None => mret ""
  end.

Definition get_access_token_secret (self : OAuth1RequestValidator)
    (client_key token : string) (request : OAuthRequest) : M string :=
  log_debug "Get access token secret of %r for %r" [PyStr token; PyStr client_key];;
  tok ← call_tokengetter self client_key token;
  match tok with
  | Some tok => mret (secret tok)
  | None => mret ""
  end.

(** [hasattr(client, 'default_realms')] is false for [None] and for a client
    without the attribute. *)
Definition get_default_realms (self : OAuth1RequestValidator) (client_key : string)
    (request : OAuthRequest) : M (list string) :=
  log_debug "Get realms for %r" [PyStr client_key];;
  c ← call_clientgetter self client_key;
  match c ≫= default_realms with
  | Some rs => mret rs
  | None => mret []
  end.

Definition validate_client_key (self : OAuth1RequestValidator) (client_key : string)
    (request : OAuthRequest) : M bool :=
  log_debug "Validate client key for %r" [PyStr client_key];;
  c ← call_clientgetter self client_key;
  if found c then mret true else mret false.

Definition validate_request_token (self : OAuth1RequestValidator)
    (client_key token : string) (request : OAuthRequest) : M bool :=
  log_debug "Validate request token %r for %r" [PyStr token; PyStr client_key];;
  tok ← call_grantgetter self client_key token;
  if found tok then mret true else mret false.

Definition validate_access_token (self : OAuth1RequestValidator)
    (client_key token : string) (request : OAuthRequest) : M bool :=
  log_debug "Validate access token %r for %r" [PyStr token; PyStr client_key];;
  tok ← call_tokengetter self client_key token;
  if found tok then mret true else mret false.

Definition validate_timestamp_and_nonce (self : OAuth1RequestValidator)
    (client_key : string) (timestamp : Z) (nonce : string) (request : OAuthRequest)
    (request_token access_token : option string) : M bool :=
  log_debug "Validate timestamp and nonce %r" [PyStr client_key];;
  (* TODO *)
  mret true.

(** [redirect_uri] is [None] when the caller supplied none. A list of
    strings never holds [None]. *)
Definition validate_redirect_uri (self : OAuth1RequestValidator) (client_key : string)
    (redirect_uri : option string) (request : OAuthRequest) : M bool :=
  log_debug "Validate redirect_uri %r for %r"
    [from_option PyStr PyNone redirect_uri; PyStr client_key];;
  c ← call_clientgetter self client_key;
  match c with
  | None => mret false
  | Some c =>
      if bool_decide (redirect_uris c = []) && negb (found redirect_uri)
      then mret true
      else mret (match redirect_uri with
                 | Some u => bool_decide (u ∈ redirect_uris c)
                 | None => false
                 end)
  end.

Definition validate_requested_realm (self : OAuth1RequestValidator) (client_key : string)
    (realm : string) (request : OAuthRequest) : M bool :=
  log_debug "Validate requested realm %r for %r" [PyStr realm; PyStr client_key];;
  (* TODO *)
  mret true.

(** The parameters and locals of [validate_realm]: the body's [realm] is
    none of them. *)
Definition validate_realm_scope : list string :=
  ["self"; "client_key"; "token"; "request"; "uri"; "required_realm"].

Definition validate_realm (self : OAuth1RequestValidator) (client_key token : string)
    (request : OAuthRequest) (uri : option string) (required_realm : option (list string))
    : M bool :=
  realm ← unbound_name validate_realm_scope "realm" eq_refl;
  log_debug "Validate realm %r for %r" [realm; PyStr client_key];;
  (* TODO *)
  mret true.

Definition validate_verifier (self : OAuth1RequestValidator) (client_key token : string)
    (verifier : string) (request : OAuthRequest) : M bool :=
  log_debug "Validate verifier %r for %r" [PyStr verifier; PyStr client_key];;
  (* TODO *)
  mret true.

Definition verify_request_token (self : OAuth1RequestValidator) (token : string)
    (request : OAuthRequest) : M bool :=
  log_debug "Validate request token %r" [PyStr token];;
  (* TODO *)
  mret true.

Definition verify_realms (self : OAuth1RequestValidator) (token : string)
    (realms : list string) (request : OAuthRequest) : M bool :=
  log_debug "Validate realms %r" [PyList (PyStr <$> realms)];;
  (* TODO *)
  mret true.

(** [pass] *)
Definition save_access_token (self : OAuth1RequestValidator) (token : Token)
    (request : OAuthRequest) : M unit :=
  mret tt.

(** [pass] *)
Definition save_request_token (self : OAuth1RequestValidator) (token : Token)
    (request : OAuthRequest) : M unit :=
  mret tt.

(** Declared without [self], under a misspelt name. *)
Definition save_verfier (oauth_token verifier : string) (request : OAuthRequest) : M unit :=
  log_debug "Save verifier %r" [PyStr verifier];;
  mret tt.

(** ** Flask and oauthlib, as the module sees them *)

(** Flask's [request]: the attributes the module reads. [request.values.get]
    is the lookup in [flask_values]. *)
Record FlaskRequest := {
  flask_url : string;
  flask_method : string;
  flask_data : string;
  flask_headers : gmap string string;
  flask_values : gmap string string;
}.

(** What a decorated view gives back to Flask: a redirect, a response made
    from a body, a status and the headers assigned to it, or whatever the
    wrapped function returned. *)
Inductive ViewResult :=
| Redirected (location : string)
| Responded (body : string) (status : Z) (headers : gmap string string)
| Handled (v : PyVal).

(** [flask.redirect(location)] *)
Definition redirect (location : string) : ViewResult := Redirected location.

(** The headers Flask gives a response it makes from a body and a status
    (Content-Type, Content-Length, ...): Flask's, not the module's. *)
Context (initial_headers : string -> Z -> gmap string string).

(** [flask.make_response(body, status)] *)
Definition make_response (body : string) (status : Z) : ViewResult :=
  Responded body status (initial_headers body status).

(** [str.lower] on the ASCII letters. *)
Definition lower_ascii (c : Ascii.ascii) : Ascii.ascii :=
  let n := Ascii.nat_of_ascii c in
  if (65 <=? n)%nat && (n <=? 90)%nat then Ascii.ascii_of_nat (n + 32) else c.

Fixpoint lower (s : string) : string :=
  match s with
  | EmptyString => EmptyString
  | String c rest => String (lower_ascii c) (lower rest)
  end.

(** [headers[k] = v] on the headers of a response: header names are compared
    without case, and the assignment replaces every header of that name by
    the one given. *)
Definition assign_header (k v : string) (headers : gmap string string)
    : gmap string string :=
  <[k:=v]> (filter (fun kv => lower kv.1 <> lower k) headers).

(** [response.headers[k] = v] *)
Definition set_header (k v : string) (response : ViewResult) : ViewResult :=
  match response with
  | Responded body status headers =>
      Responded body status (assign_header k v headers)
  | r => r
  end.

(** The names of a dict of headers stay different when compared without
    case. *)
Definition distinct_without_case (headers : gmap string string) : Prop :=
  forall k1 k2,
    is_Some (headers !! k1) -> is_Some (headers !! k2) ->
    lower k1 = lower k2 -> k1 = k2.

(** The wrapped function [f] of a decorator, called as [f( *args, **kwargs)]. *)
Definition Handler : Type := list PyVal -> gmap string PyVal -> M PyVal.

Definition call_handler (f : Handler) (args : list PyVal) (kwargs : gmap string PyVal)
    : M PyVal :=
  record HandlerCall;;
  f args kwargs.

(** [Server(validator)], oauthlib's [WebApplicationServer]. *)
Record Server := WebApplicationServer {
  request_validator : OAuth1RequestValidator;
}.

(** oauthlib's endpoints, [oauthlib.common.add_params_to_uri] and
    [OAuth1Error.in_uri], and [_extract_params] of [flask_oauthlib._utils]:
    called by the module, defined outside it. An endpoint is a computation:
    it may call the validator, change the storage, and raise. *)
Context (get_realms_and_credentials :
           Server -> string -> string -> string -> gmap string string ->
           M (list string * gmap string PyVal)).
Context (create_authorization_response :
           Server -> string -> string -> string -> gmap string string ->
           list string -> gmap string PyVal ->
           M (string * gmap string string * string * Z)).
Context (create_request_token_response :
           Server -> string -> string -> string -> gmap string string -> PyVal ->
           M (string * gmap string string * string * Z)).
(** [verify_request] is the method the server offers under that name, if
    it offers one: [require_oauth] is the only place that asks for it. *)
Context (verify_request :
           option (Server -> string -> string -> string -> gmap string string ->
                   PyVal -> M (bool * OAuthRequest))).
Context (add_params_to_uri : string -> list (string * string) -> string).
Context (in_uri : OAuth1Error -> option string -> Exn + string).
Context (_extract_params : FlaskRequest -> string * string * string * gmap string string).

(** [server.verify_request], the attribute looked up on the server. *)
Definition get_verify_request (server : Server)
    : Exn + (string -> string -> string -> gmap string string -> PyVal ->
             M (bool * OAuthRequest)) :=
  match verify_request with
  | Some method => inr (method server)
  | None => inl (AttributeError "verify_request")
  end.

(** A call of one of the server's endpoints, recorded in the world. *)
Definition server_call {A} (endpoint : string) (c : M A) : M A :=
  record (ServerCall endpoint);;
  c.

(** ** OAuth1Provider *)

(** A Flask application: its configuration and its extensions. *)
Record App := {
  config : gmap string PyVal;
  extensions : gset string;
}.

(** The attributes of a provider instance, each absent until assigned.
    [error_uri] is read by [authorize_handler]; no method of the class
    assigns it, so it is present only when the application assigned it from
    outside. *)
Record OAuth1Provider := {
  app : option App;
  provider_clientgetter : option (Store -> string -> option Client);
  provider_tokengetter : option (Store -> string -> string -> option Token);
  provider_grantgetter : option (Store -> string -> string -> option Token);
  provider_validator : option OAuth1RequestValidator;
  error_uri : option string;
}.

(** [init_app] *)
Definition init_app (self : OAuth1Provider) (a : App) : OAuth1Provider :=
  {| app := Some {| config := config a;
                    extensions := {["oauthlib.provider.oauth1"]} ∪ extensions a |};
     provider_clientgetter := provider_clientgetter self;
     provider_tokengetter := provider_tokengetter self;
     provider_grantgetter := provider_grantgetter self;
     provider_validator := provider_validator self;
     error_uri := error_uri self |}.

(** [OAuth1Provider.__init__] *)
Definition OAuth1Provider__init__ (a : option App) : OAuth1Provider :=
  let self := {| app := None; provider_clientgetter := None;
                 provider_tokengetter := None; provider_grantgetter := None;
                 provider_validator := None; error_uri := None |} in
  match a with
  | Some a => init_app self a
  | None => self
  end.

Definition clientgetter (self : OAuth1Provider) (f : Store -> string -> option Client)
    : OAuth1Provider :=
  {| app := app self;
     provider_clientgetter := Some f;
     provider_tokengetter := provider_tokengetter self;
     provider_grantgetter := provider_grantgetter self;
     provider_validator := provider_validator self;
     error_uri := error_uri self |}.

Definition tokengetter (self : OAuth1Provider)
    (f : Store -> string -> string -> option Token) : OAuth1Provider :=
  {| app := app self;
     provider_clientgetter := provider_clientgetter self;
     provider_tokengetter := Some f;
     provider_grantgetter := provider_grantgetter self;
     provider_validator := provider_validator self;
     error_uri := error_uri self |}.

Definition grantgetter (self : OAuth1Provider)
    (f : Store -> string -> string -> option Token) : OAuth1Provider :=
  {| app := app self;
     provider_clientgetter := provider_clientgetter self;
     provider_tokengetter := provider_tokengetter self;
     provider_grantgetter := Some f;
     provider_validator := provider_validator self;
     error_uri := error_uri self |}.

(** The [server] property. The value is cached on first use and
    [_validator] is then assigned; both only save rebuilding the same
    server, so the model rebuilds it. *)
Definition server (self : OAuth1Provider) : Exn + Server :=
  match provider_validator self with
  | Some validator => inr (WebApplicationServer validator)
  | None =>
      match provider_clientgetter self, provider_tokengetter self,
            provider_grantgetter self with
      | Some c, Some t, Some g =>
          match app self with
          | Some a =>
              inr (WebApplicationServer
                     (OAuth1RequestValidator__init__ c t g (Some (config a))))
          | None => inl (AttributeError "app")
          end
      | _, _, _ => inl (RuntimeError "application not bound to required getters")
      end
  end.

(** [self.error_uri] *)
Definition get_error_uri (self : OAuth1Provider) : Exn + string :=
  match error_uri self with
  | Some u => inr u
  | None => inl (AttributeError "error_uri")
  end.

(** When consumer confirm the authrozation. *)
Definition confirm_authorization_request (self : OAuth1Provider) (request : FlaskRequest)
    : M ViewResult :=
  server ← lift (server self);
  (* TODO *)
  let realms := [] in
  let credentials := ∅ in
  let '(uri, http_method, body, headers) := _extract_params request in
  try_except_OAuth1Error
    (ret ← server_call "create_authorization_response"
             (create_authorization_response server uri http_method body headers
                realms credentials);
     log_debug "Authorization successful." [];;
     mret (redirect ret.1.1.1))
    (fun e =>
       let redirect_uri := flask_values request !! "redirect_uri" in
       location ← lift (in_uri e redirect_uri);
       mret (redirect location)).

(** Authorization handler decorator: [authorize_handler self f] is
    [decorated]. *)
Definition authorize_handler (self : OAuth1Provider) (f : Handler) (request : FlaskRequest)
    (args : list PyVal) (kwargs : gmap string PyVal) : M ViewResult :=
  server ← lift (server self);
  let '(uri, http_method, body, headers) := _extract_params request in
  '(realms, credentials) ← server_call "get_realms_and_credentials"
      (get_realms_and_credentials server (flask_url request) (flask_method request)
         (flask_data request) (flask_headers request));
  if bool_decide (flask_method request = "GET") then
    let kwargs := credentials ∪ <["realms" := PyList (PyStr <$> realms)]> kwargs in
    v ← call_handler f args kwargs;
    mret (Handled v)
  else if bool_decide (flask_method request = "POST") then
    v ← call_handler f args kwargs;
    if negb (truthy v) then
      error_uri ← lift (get_error_uri self);
      let uri := add_params_to_uri error_uri [("error", "denied")] in
      mret (redirect uri)
    else confirm_authorization_request self request
  else mret (Handled PyNone).

(** Request token decorator. [print ret] writes to the standard output,
    which the model leaves out. *)
Definition request_token_handler (self : OAuth1Provider) (f : Handler)
    (request : FlaskRequest) (args : list PyVal) (kwargs : gmap string PyVal)
    : M ViewResult :=
  server ← lift (server self);
  let '(uri, http_method, body, headers) := _extract_params request in
  credentials ← call_handler f args kwargs;
  try_except_OAuth1Error
    (ret ← server_call "create_request_token_response"
             (create_request_token_response server uri http_method body headers
                credentials);
     let '(uri, headers, body, status) := ret in
     let response := make_response body status in
     mret (map_fold set_header response headers))
    (fun e =>
       let redirect_uri := flask_values request !! "redirect_uri" in
       location ← lift (in_uri e redirect_uri);
       mret (redirect location)).

(** Access token decorator. *)
Definition access_token_handler (self : OAuth1Provider) (f : Handler)
    (request : FlaskRequest) (args : list PyVal) (kwargs : gmap string PyVal)
    : M ViewResult :=
  (* server = self.server *)
  v ← call_handler f args kwargs;
  mret (Handled v).

(** The names in scope inside [decorated] of [require_oauth]: its own
    parameters and locals, and those of [wrapper] and [require_oauth]. *)
Definition require_oauth_scope : list string :=
  [ "args"; "kwargs"; "server"; "uri"; "http_method"; "body"; "headers";
    "valid"; "req"; "f"; "decorated"; "self"; "realms"; "wrapper" ].

(** Protect resource with specified scopes: [require_oauth self realms f]
    is [decorated]. In the call [server.verify_request(..., scopes)] the
    method is looked up on the server first, then the arguments are
    evaluated. *)
Definition require_oauth (self : OAuth1Provider) (realms : list string) (f : Handler)
    (request : FlaskRequest) (args : list PyVal) (kwargs : gmap string PyVal)
    : M ViewResult :=
  server ← lift (server self);
  let '(uri, http_method, body, headers) := _extract_params request in
  verify ← lift (get_verify_request server);
  scopes ← unbound_name require_oauth_scope "scopes" eq_refl;
  '(valid, req) ← server_call "verify_request"
      (verify uri http_method body headers scopes);
  if negb valid then
    abort ← unbound_name (A := Z -> M ViewResult) require_oauth_scope "abort" eq_refl;
    abort 403%Z
  else
    v ← call_handler f (PyRequest req :: args) kwargs;
    mret (Handled v).

(** ** The cache of the [server] property

    [server] is a [cached_property]: the first access that returns stores
    the value on the instance, under the property's name, and every later
    access reads it from there without running the body again. The body
    also assigns [self._validator] when it builds the validator itself. *)

(** A provider instance with the slot of the cached property. *)
Record ProviderObject := {
  attributes : OAuth1Provider;
  cached_server : option Server;
}.

(** [self._validator = validator] *)
Definition set_validator (self : OAuth1Provider) (validator : OAuth1RequestValidator)
    : OAuth1Provider :=
  {| app := app self;
     provider_clientgetter := provider_clientgetter self;
     provider_tokengetter := provider_tokengetter self;
     provider_grantgetter := provider_grantgetter self;
     provider_validator := Some validator;
     error_uri := error_uri self |}.

(** One access to [self.server]: the outcome, and the instance after it. An
    access that raises stores nothing. *)
Definition server_property (self : ProviderObject) : (Exn + Server) * ProviderObject :=
  match cached_server self with
  | Some value => (inr value, self)
  | None =>
      let this := attributes self in
      match provider_validator this with
      | Some validator =>
          let value := WebApplicationServer validator in
          (inr value, {| attributes := this; cached_server := Some value |})
      | None =>
          match provider_clientgetter this, provider_tokengetter this,
                provider_grantgetter this with
          | Some c, Some t, Some g =>
              match app this with
              | Some a =>
                  let validator :=
                    OAuth1RequestValidator__init__ c t g (Some (config a)) in
                  let value := WebApplicationServer validator in
                  (inr value,
                   {| attributes := set_validator this validator;
                      cached_server := Some value |})
              | None => (inl (AttributeError "app"), self)
              end
          | _, _, _ =>
              (inl (RuntimeError "application not bound to required getters"), self)
          end
      end
  end.

(** A decorator applied to the instance ([oauth.clientgetter(f)] and the
    like): it changes the attributes and leaves the cache alone. *)
Definition update_attributes (change : OAuth1Provider -> OAuth1Provider)
    (self : ProviderObject) : ProviderObject :=
  {| attributes := change (attributes self); cached_server := cached_server self |}.

(** ** A worked scenario

    Client abc with secret xyz, its request token tok1 (secret sek1,
    verifier ver1) and its access token tok2 (secret sek2), served by
    getters that answer the same in every state of the storage; and
    stand-ins for the collaborators outside the module, to run a view on a
    concrete request. *)

Definition client_abc : Client :=
  {| client_key := "abc"; client_secret := "xyz";
     redirect_uris := ["http://client.example/cb"];
     default_realms := Some [] |}.

Definition tok1 : Token :=
  {| token_key := "tok1"; secret := "sek1"; realms_of := [];
     verifier := Some "ver1" |}.

Definition tok2 : Token :=
  {| token_key := "tok2"; secret := "sek2"; realms_of := []; verifier := None |}.

Definition scenario_clientgetter : Store -> string -> option Client :=
  fun _ client_key =>
    if String.eqb client_key "abc" then Some client_abc else None.

Definition scenario_grantgetter : Store -> string -> string -> option Token :=
  fun _ client_key token =>
    if String.eqb client_key "abc" && String.eqb token "tok1" then Some tok1 else None.

Definition scenario_tokengetter : Store -> string -> string -> option Token :=
  fun _ client_key token =>
    if String.eqb client_key "abc" && String.eqb token "tok2" then Some tok2 else None.

Definition scenario_validator : OAuth1RequestValidator :=
  OAuth1RequestValidator__init__ scenario_clientgetter scenario_tokengetter
    scenario_grantgetter None.

Definition scenario_app : App := {| config := ∅; extensions := ∅ |}.

(** [oauth = OAuth1Provider(app)] with the three getters registered. *)
Definition scenario_provider : OAuth1Provider :=
  grantgetter
    (tokengetter
       (clientgetter (OAuth1Provider__init__ (Some scenario_app))
          scenario_clientgetter)
       scenario_tokengetter)
    scenario_grantgetter.

(** A request as oauthlib hands it to the validator, [client] not set. *)
Definition signed_request : OAuthRequest :=
  {| request_uri := "http://provider.example/oauth/access_token";
     request_http_method := "POST";
     request_body := "";
     request_headers := [];
     request_client_key := Some "abc";
     request_resource_owner_key := Some "tok1";
     client := None |}.

(** The POST of the consent form, with the client's [redirect_uri]. *)
Definition consent_post : FlaskRequest :=
  {| flask_url := "http://provider.example/oauth/authorize";
     flask_method := "POST";
     flask_data := "";
     flask_headers := ∅;
     flask_values := {["redirect_uri" := "http://client.example/cb"]} |}.

(** A wrapped function that returns [False] (the owner denies). *)
Definition deny : Handler := fun _ _ => mret (PyBool false).

(** A wrapped function that returns [True] (the owner approves). *)
Definition approve : Handler := fun _ _ => mret (PyBool true).

Definition invalid_client : OAuth1Error :=
  {| error := "invalid_client"; description := "" |}.

Definition sample_get_realms_and_credentials :
    Server -> string -> string -> string -> gmap string string ->
    M (list string * gmap string PyVal) :=
  fun _ _ _ _ _ => mret ([], ∅).

Definition sample_failing_authorization_response :
    Server -> string -> string -> string -> gmap string string ->
    list string -> gmap string PyVal ->
    M (string * gmap string string * string * Z) :=
  fun _ _ _ _ _ _ _ => raise (OAuth1Exn invalid_client).

Definition sample_failing_request_token_response :
    Server -> string -> string -> string -> gmap string string -> PyVal ->
    M (string * gmap string string * string * Z) :=
  fun _ _ _ _ _ _ => raise (OAuth1Exn invalid_client).

Definition sample_verify_request :
    Server -> string -> string -> string -> gmap string string -> PyVal ->
    M (bool * OAuthRequest) :=
  fun _ _ _ _ _ _ => mret (true, signed_request).

Definition sample_add_params_to_uri : string -> list (string * string) -> string :=
  fun uri params =>
    uri +:+ "?" +:+ String.concat "&" ((fun kv => kv.1 +:+ "=" +:+ kv.2) <$> params).

Definition sample_in_uri : OAuth1Error -> option string -> Exn + string :=
  fun e uri =>
    match uri with
    | Some u => inr (sample_add_params_to_uri u [("error", error e)])
    | None => inl (OtherError "no uri")
    end.

Definition sample_extract_params :
    FlaskRequest -> string * string * string * gmap string string :=
  fun request =>
    (flask_url request, flask_method request, flask_data request,
     flask_headers request).

(** The consent page is fetched with GET; PUT is a method the authorization
    view has no branch for. *)
Definition consent_get : FlaskRequest :=
  {| flask_url := "http://provider.example/oauth/authorize?oauth_token=tok1";
     flask_method := "GET";
     flask_data := "";
     flask_headers := ∅;
     flask_values := {["oauth_token" := "tok1"]} |}.

Definition consent_put : FlaskRequest :=
  {| flask_url := "http://provider.example/oauth/authorize";
     flask_method := "PUT";
     flask_data := "";
     flask_headers := ∅;
     flask_values := ∅ |}.

(** A consent page that returns the realms it was given. *)
Definition show_realms : Handler :=
  fun _ kwargs => mret (default PyNone (kwargs !! "realms")).

Definition sample_realms_of_token :
    Server -> string -> string -> string -> gmap string string ->
    M (list string * gmap string PyVal) :=
  fun _ _ _ _ _ => mret (["email"], {["resource_owner_key" := PyStr "tok1"]}).

Definition sample_failing_realms :
    Server -> string -> string -> string -> gmap string string ->
    M (list string * gmap string PyVal) :=
  fun _ _ _ _ _ => raise (OAuth1Exn invalid_client).

Definition sample_authorization_response :
    Server -> string -> string -> string -> gmap string string ->
    list string -> gmap string PyVal ->
    M (string * gmap string string * string * Z) :=
  fun _ _ _ _ _ _ _ =>
    mret ("http://client.example/cb?oauth_token=tok1&oauth_verifier=ver1",
          ∅, "", 302%Z).

Definition sample_request_token_response :
    Server -> string -> string -> string -> gmap string string -> PyVal ->
    M (string * gmap string string * string * Z) :=
  fun _ _ _ _ _ _ =>
    mret ("", {["Content-Type" := "application/x-www-form-urlencoded"]},
          "oauth_token=tok1&oauth_token_secret=sek1", 200%Z).

(** The server answers the refused client itself, with status 401. *)
Definition sample_refusing_request_token_response :
    Server -> string -> string -> string -> gmap string string -> PyVal ->
    M (string * gmap string string * string * Z) :=
  fun _ _ _ _ _ _ =>
    mret ("", {["Content-Type" := "application/x-www-form-urlencoded"]},
          "error=invalid_client", 401%Z).

(** The headers of a new response, as far as the scenario needs them: a
    content type, and a marker in place of the length. *)
Definition sample_initial_headers : string -> Z -> gmap string string :=
  fun _ _ =>
    {["Content-Type" := "text/html; charset=utf-8"; "Content-Length" := "n"]}.

Definition sample_broken_request_token_response :
    Server -> string -> string -> string -> gmap string string -> PyVal ->
    M (string * gmap string string * string * Z) :=
  fun _ _ _ _ _ _ => raise (OtherError "storage unavailable").

(** ** Properties of the request validator *)

(** Unfolds the monad's operations, so that a method body applied to a
    world computes. *)
Ltac run_M :=
  cbv [mbind mret M_bind M_ret raise lift record log_debug unbound_name
       try_except_OAuth1Error server_call call_handler
       call_clientgetter call_grantgetter call_tokengetter].

(** [request.client = request.client] changes nothing. *)
Lemma set_client_same (request : OAuthRequest) :
  set_client request (client request) = request.
Proof. by destruct request. Qed.

(** C8: the five length properties (verifier, request token, access token,
    client key, nonce) all resolve to the value configured under
    OAUTH1_PROVIDER_KEY_LENGTH, and to (20, 30) when the validator is built
    without a configuration or with an empty one. *)
Theorem length_policy_shared (self : OAuth1RequestValidator)
    (c : Store -> string -> option Client)
    (t g : Store -> string -> string -> option Token) :
  let bounds := default (PyTuple [PyInt 20; PyInt 30])
                        (_config self !! "OAUTH1_PROVIDER_KEY_LENGTH") in
  let unconfigured := OAuth1RequestValidator__init__ c t g None in
  let empty := OAuth1RequestValidator__init__ c t g (Some ∅) in
  (verifier_length self = bounds /\ reqeust_token_length self = bounds /\
   access_token_length self = bounds /\ client_key_length self = bounds /\
   nonce_length self = bounds) /\
  (verifier_length unconfigured = PyTuple [PyInt 20; PyInt 30] /\
   reqeust_token_length unconfigured = PyTuple [PyInt 20; PyInt 30] /\
   access_token_length unconfigured = PyTuple [PyInt 20; PyInt 30] /\
   client_key_length unconfigured = PyTuple [PyInt 20; PyInt 30] /\
   nonce_length unconfigured = PyTuple [PyInt 20; PyInt 30]) /\
  verifier_length empty = PyTuple [PyInt 20; PyInt 30].
Proof.
  repeat split.
Qed.

(** C9: a secret getter returns the empty string when the getter it
    consults finds nothing, and the found entity's secret otherwise.
    [get_client_secret] consults the client getter when [request.client] is
    not set yet. *)
Theorem secret_getters_empty_when_missing (self : OAuth1RequestValidator)
    (client_key token : string) (request : OAuthRequest) (w : World) :
  (_grantgetter self (store w) client_key token = None ->
   (get_request_token_secret self client_key token request w).1 = Return "") /\
  (forall tok, _grantgetter self (store w) client_key token = Some tok ->
   (get_request_token_secret self client_key token request w).1 = Return (secret tok)) /\
  (_tokengetter self (store w) client_key token = None ->
   (get_access_token_secret self client_key token request w).1 = Return "") /\
  (forall tok, _tokengetter self (store w) client_key token = Some tok ->
   (get_access_token_secret self client_key token request w).1 = Return (secret tok)) /\
  (client request = None -> _clientgetter self (store w) client_key = None ->
   (get_client_secret self client_key request w).1 = Return ("", request)) /\
  (forall c, client request = None -> _clientgetter self (store w) client_key = Some c ->
   (get_client_secret self client_key request w).1
   = Return (client_secret c, set_client request (Some c))).
Proof.
  unfold get_request_token_secret, get_access_token_secret, get_client_secret.
  run_M. simpl.
  repeat split.
  - by intros ->.
  - by intros tok ->.
  - by intros ->.
  - by intros tok ->.
  - intros Hreq Hget. rewrite Hreq. simpl. rewrite Hget. simpl.
    by rewrite <- Hreq, set_client_same.
  - intros c Hreq Hget. rewrite Hreq. simpl. by rewrite Hget.
Qed.

(** C4: [validate_client_key], [validate_request_token] and
    [validate_access_token] return a boolean in every world, and return
    false when the getter finds nothing. *)
Theorem validator_predicates_return_bool (self : OAuth1RequestValidator)
    (client_key token : string) (request : OAuthRequest) (w : World) :
  (exists b, (validate_client_key self client_key request w).1 = Return b /\
     (_clientgetter self (store w) client_key = None -> b = false)) /\
  (exists b, (validate_request_token self client_key token request w).1 = Return b /\
     (_grantgetter self (store w) client_key token = None -> b = false)) /\
  (exists b, (validate_access_token self client_key token request w).1 = Return b /\
     (_tokengetter self (store w) client_key token = None -> b = false)).
Proof.
  unfold validate_client_key, validate_request_token, validate_access_token.
  run_M. simpl.
  repeat split.
  - destruct (_clientgetter self (store w) client_key); simpl; eauto.
    exists true. by split.
  - destruct (_grantgetter self (store w) client_key token); simpl; eauto.
    exists true. by split.
  - destruct (_tokengetter self (store w) client_key token); simpl; eauto.
    exists true. by split.
Qed.

(** C5: [validate_redirect_uri] returns true exactly when the client is
    found and either the supplied URI is one of its registered URIs, or it
    registered none and none is supplied. *)
Theorem validate_redirect_uri_accepts_iff (self : OAuth1RequestValidator)
    (client_key : string) (redirect_uri : option string) (request : OAuthRequest)
    (w : World) :
  exists b,
    (validate_redirect_uri self client_key redirect_uri request w).1 = Return b /\
    (b = true <->
     exists c, _clientgetter self (store w) client_key = Some c /\
       ((exists u, redirect_uri = Some u /\ u ∈ redirect_uris c) \/
        (redirect_uris c = [] /\ redirect_uri = None))).
Proof.
  unfold validate_redirect_uri. run_M. simpl.
  destruct (_clientgetter self (store w) client_key) as [c|] eqn:Hc; simpl.
  - destruct (redirect_uris c) as [|u0 us] eqn:Hus, redirect_uri as [u|]; simpl;
      eexists; (split; [reflexivity|]).
    + split; [done|]. intros (c' & [= <-] & [(u' & _ & Hin)|[_ [=]]]).
      rewrite Hus in Hin. by apply elem_of_nil in Hin.
    + split; [|done]. intros _. exists c. rewrite Hus. eauto.
    + rewrite bool_decide_eq_true. split.
      * intros Hin. exists c. rewrite Hus. eauto.
      * intros (c' & [= <-] & [(u' & [= <-] & Hin)|[_ [=]]]). by rewrite Hus in Hin.
    + split; [done|]. intros (c' & [= <-] & [(u' & [=] & _)|[Hnil _]]).
      by rewrite Hus in Hnil.
  - exists false. split; [done|]. split; [done|]. by intros (c & [=] & _).
Qed.

(** C10: with [request.client] set, [get_client_secret] returns the cached
    client's secret and leaves the request and the world as they were (the
    client getter is not called); with [request.client] unset it calls the
    client getter once, assigns its result to [request.client] and leaves
    every other field of the request as it was. *)
Theorem get_client_secret_memoizes (self : OAuth1RequestValidator)
    (client_key : string) (request : OAuthRequest) (w : World) :
  (forall c, client request = Some c ->
     get_client_secret self client_key request w
     = (Return (client_secret c, request), w)) /\
  (client request = None ->
     exists s request',
       get_client_secret self client_key request w
       = (Return (s, request'),
          {| store := store w; calls := calls w ++ [ClientGetterCall client_key] |}) /\
       client request' = _clientgetter self (store w) client_key /\
       request_uri request' = request_uri request /\
       request_http_method request' = request_http_method request /\
       request_body request' = request_body request /\
       request_headers request' = request_headers request /\
       request_client_key request' = request_client_key request /\
       request_resource_owner_key request' = request_resource_owner_key request).
Proof.
  unfold get_client_secret. run_M. split.
  - intros c Hc. rewrite Hc. simpl. by rewrite Hc.
  - intros Hnone. rewrite Hnone. simpl.
    destruct (_clientgetter self (store w) client_key) as [c|] eqn:Hget.
    + exists (client_secret c), (set_client request (Some c)). by repeat split.
    + exists "", (set_client request None). by repeat split.
Qed.

(** C2, as the code behaves: [validate_timestamp_and_nonce] returns true for
    every timestamp and every nonce and records nothing, so presenting the
    same (client_key, token, nonce, timestamp) twice is accepted twice. *)
Theorem validate_timestamp_and_nonce_accepts_replay (self : OAuth1RequestValidator)
    (client_key : string) (timestamp : Z) (nonce : string) (request : OAuthRequest)
    (request_token access_token : option string) (w : World) :
  validate_timestamp_and_nonce self client_key timestamp nonce request
    request_token access_token w = (Return true, w) /\
  (first ← validate_timestamp_and_nonce self client_key timestamp nonce request
             request_token access_token;
   second ← validate_timestamp_and_nonce self client_key timestamp nonce request
              request_token access_token;
   mret (first, second)) w = (Return (true, true), w).
Proof.
  split; reflexivity.
Qed.

(** C1, as the code behaves: [validate_verifier] and [verify_request_token]
    return true for every verifier and token, [save_access_token] and
    [save_request_token] leave the world as it was, and so an exchange
    attempt (the request token is known, the verifier is accepted) repeated
    after the access token was saved is answered exactly like the first. *)
Theorem exchange_is_repeatable (self : OAuth1RequestValidator)
    (client_key token verifier : string) (request : OAuthRequest)
    (access_token request_token : Token) (w : World) :
  let attempt : M bool :=
    known ← validate_request_token self client_key token request;
    accepted ← validate_verifier self client_key token verifier request;
    mret (known && accepted) in
  let known := found (_grantgetter self (store w) client_key token) in
  validate_verifier self client_key token verifier request w = (Return true, w) /\
  verify_request_token self token request w = (Return true, w) /\
  save_access_token self access_token request w = (Return tt, w) /\
  save_request_token self request_token request w = (Return tt, w) /\
  (first ← attempt;
   save_access_token self access_token request;;
   second ← attempt;
   mret (first, second)) w
  = (Return (known, known),
     {| store := store w;
        calls := (calls w ++ [GrantGetterCall client_key token])
                 ++ [GrantGetterCall client_key token] |}).
Proof.
  intros attempt known. subst attempt known.
  repeat split.
  unfold validate_request_token, validate_verifier, save_access_token.
  run_M. simpl.
  destruct (_grantgetter self (store w) client_key token) eqn:Hgrant;
    simpl; by rewrite Hgrant.
Qed.

(** C3, as the code behaves: the view wrapped by [require_oauth] raises
    before it calls the server or the protected function, whatever the
    realms: [AttributeError] when the server offers no method
    [verify_request], and [NameError] when it offers one, since [scopes] is
    bound nowhere. It returns no response, and the world is left as it was.
    [validate_realm] raises too ([realm] is not a name of its scope). *)
Theorem require_oauth_raises (self : OAuth1Provider) (realms : list string)
    (f : Handler) (request : FlaskRequest) (args : list PyVal)
    (kwargs : gmap string PyVal) (validator : OAuth1RequestValidator)
    (client_key token : string) (oauth_request : OAuthRequest) (uri : option string)
    (required_realm : option (list string)) (w : World) :
  require_oauth self realms f request args kwargs w
  = (Raise (match server self, verify_request with
            | inl e, _ => e
            | inr _, None => AttributeError "verify_request"
            | inr _, Some _ => NameError "scopes"
            end), w) /\
  validate_realm validator client_key token oauth_request uri required_realm w
  = (Raise (NameError "realm"), w).
Proof.
  split; [|reflexivity].
  unfold require_oauth, get_verify_request. run_M.
  destruct (server self) as [e|srv]; [reflexivity|].
  destruct (_extract_params request) as [[[? ?] ?] ?].
  by destruct verify_request.
Qed.

(** No method of the class assigns [error_uri]: a provider built by the
    constructor and the registration decorators has none. *)
Lemma api_never_sets_error_uri (a : option App)
    (c : Store -> string -> option Client)
    (t g : Store -> string -> string -> option Token) :
  error_uri (grantgetter (tokengetter (clientgetter (OAuth1Provider__init__ a) c) t) g)
  = None.
Proof. by destruct a. Qed.

(** C7, as the code behaves: on a POST for which the wrapped function
    returns a false value, the view stops right after that call (no
    authorization response is created, so no verifier), and its outcome is
    decided by [self.error_uri]: a redirect to it with error=denied when the
    attribute was assigned, [AttributeError] when it was not. *)
Theorem authorize_handler_denied (self : OAuth1Provider) (f : Handler)
    (request : FlaskRequest) (args : list PyVal) (kwargs : gmap string PyVal)
    (srv : Server) (realms : list string) (credentials : gmap string PyVal)
    (v : PyVal) (w w1 w2 : World) :
  server self = inr srv ->
  flask_method request = "POST" ->
  server_call "get_realms_and_credentials"
    (get_realms_and_credentials srv (flask_url request) (flask_method request)
       (flask_data request) (flask_headers request)) w
  = (Return (realms, credentials), w1) ->
  call_handler f args kwargs w1 = (Return v, w2) ->
  truthy v = false ->
  authorize_handler self f request args kwargs w
  = (match error_uri self with
     | Some u => Return (redirect (add_params_to_uri u [("error", "denied")]))
     | None => Raise (AttributeError "error_uri")
     end, w2).
Proof.
  intros Hsrv Hpost Hrealms Hf Hv.
  unfold authorize_handler.
  destruct (_extract_params request) as [[[uri http_method] body] headers].
  rewrite Hsrv. change (lift (inr srv)) with (mret (M := M) srv).
  unfold mbind at 1, M_bind, mret, M_ret.
  unfold mbind at 1, M_bind. rewrite Hrealms.
  rewrite Hpost.
  rewrite (bool_decide_eq_false_2 ("POST" = "GET")) by done.
  rewrite (bool_decide_eq_true_2 ("POST" = "POST")) by done.
  unfold mbind at 1, M_bind. rewrite Hf. rewrite Hv. simpl negb. cbv iota.
  unfold get_error_uri. by destruct (error_uri self).
Qed.

(** C6, amended: when the server's endpoint called inside the [try] raises
    an [OAuth1Error] and the request carries a [redirect_uri], the request
    token view and [confirm_authorization_request] (also when reached
    through the authorization view, once its realms lookup has returned and
    the owner has approved) return a redirect to the location
    [OAuth1Error.in_uri] builds from that URI: the exception does not leave
    the view. *)
Theorem protocol_errors_become_redirects (self : OAuth1Provider) (f : Handler)
    (request : FlaskRequest) (args : list PyVal) (kwargs : gmap string PyVal)
    (srv : Server) (uri http_method body : string) (headers : gmap string string)
    (e : OAuth1Error) (u location : string) :
  server self = inr srv ->
  _extract_params request = (uri, http_method, body, headers) ->
  flask_values request !! "redirect_uri" = Some u ->
  in_uri e (Some u) = inr location ->
  (forall credentials w w1 w2,
     call_handler f args kwargs w = (Return credentials, w1) ->
     server_call "create_request_token_response"
       (create_request_token_response srv uri http_method body headers credentials) w1
     = (Raise (OAuth1Exn e), w2) ->
     request_token_handler self f request args kwargs w
     = (Return (redirect location), w2)) /\
  (forall w w2,
     server_call "create_authorization_response"
       (create_authorization_response srv uri http_method body headers [] ∅) w
     = (Raise (OAuth1Exn e), w2) ->
     confirm_authorization_request self request w
     = (Return (redirect location), w2)) /\
  (forall realms credentials v w w1 w2 w3,
     flask_method request = "POST" ->
     server_call "get_realms_and_credentials"
       (get_realms_and_credentials srv (flask_url request) (flask_method request)
          (flask_data request) (flask_headers request)) w
     = (Return (realms, credentials), w1) ->
     call_handler f args kwargs w1 = (Return v, w2) ->
     truthy v = true ->
     server_call "create_authorization_response"
       (create_authorization_response srv uri http_method body headers [] ∅) w2
     = (Raise (OAuth1Exn e), w3) ->
     authorize_handler self f request args kwargs w
     = (Return (redirect location), w3)).
Proof.
  intros Hsrv Hparams Hvalues Huri.
  assert (Hconfirm : forall w w2,
     server_call "create_authorization_response"
       (create_authorization_response srv uri http_method body headers [] ∅) w
     = (Raise (OAuth1Exn e), w2) ->
     confirm_authorization_request self request w
     = (Return (redirect location), w2)).
  { intros w w2 Hcall.
    unfold confirm_authorization_request. rewrite Hsrv, Hparams.
    change (lift (inr srv)) with (mret (M := M) srv).
    unfold mbind at 1, M_bind, mret at 1, M_ret.
    unfold try_except_OAuth1Error. unfold mbind at 1, M_bind.
    rewrite Hcall, Hvalues, Huri. reflexivity. }
  split; [|split; [exact Hconfirm|]].
  - intros credentials w w1 w2 Hf Hcall.
    unfold request_token_handler. rewrite Hsrv, Hparams.
    change (lift (inr srv)) with (mret (M := M) srv).
    unfold mbind at 1, M_bind, mret at 1, M_ret.
    unfold mbind at 1, M_bind. rewrite Hf.
    unfold try_except_OAuth1Error. unfold mbind at 1, M_bind.
    rewrite Hcall, Hvalues, Huri. reflexivity.
  - intros realms credentials v w w1 w2 w3 Hpost Hrealms Hf Hv Hcall.
    unfold authorize_handler. rewrite Hsrv, Hparams.
    change (lift (inr srv)) with (mret (M := M) srv).
    unfold mbind at 1, M_bind, mret at 1, M_ret.
    unfold mbind at 1, M_bind. rewrite Hrealms.
    rewrite Hpost.
    rewrite (bool_decide_eq_false_2 ("POST" = "GET")) by done.
    rewrite (bool_decide_eq_true_2 ("POST" = "POST")) by done.
    unfold mbind at 1, M_bind. rewrite Hf, Hv. simpl negb. cbv iota.
    by apply Hconfirm.
Qed.

(** ** Further properties: setting up the provider *)

(** X1: [server] returns a server exactly when a validator is set, or the
    three getters and the application are all bound. Without a validator
    and with a getter missing it raises [RuntimeError], whether or not the
    application is bound; a validator that is set is used as it is. *)
Theorem server_available_iff (self : OAuth1Provider) :
  ((exists srv, server self = inr srv) <->
   is_Some (provider_validator self) \/
   (is_Some (provider_clientgetter self) /\ is_Some (provider_tokengetter self) /\
    is_Some (provider_grantgetter self) /\ is_Some (app self))) /\
  (provider_validator self = None ->
   provider_clientgetter self = None \/ provider_tokengetter self = None \/
   provider_grantgetter self = None ->
   server self = inl (RuntimeError "application not bound to required getters")) /\
  (forall validator, provider_validator self = Some validator ->
   server self = inr (WebApplicationServer validator)).
Proof.
  unfold server.
  destruct (provider_validator self) as [v|], (provider_clientgetter self) as [c|],
    (provider_tokengetter self) as [t|], (provider_grantgetter self) as [g|],
    (app self) as [a|];
    (split; [split; [intros [srv Hsrv]|intros Hbound]|split]);
    try discriminate; eauto 10;
    try (intros _ [|[|]]; discriminate);
    try (intros ? [= <-]; reflexivity);
    try (intros ? [=]);
    destruct Hbound as [Hv|(Hc & Ht & Hg & Ha)];
    try (by destruct Hv); try (by destruct Hc); try (by destruct Ht);
    try (by destruct Hg); try (by destruct Ha).
Qed.

(** X2: a provider bound to an application and given the three getters, in
    either of the two usage modes of the class docstring, serves through a
    validator that holds exactly these getters and the application's
    configuration. *)
Theorem server_uses_registered_getters (a : App)
    (c : Store -> string -> option Client)
    (t g : Store -> string -> string -> option Token) :
  let bound_first :=
    grantgetter (tokengetter (clientgetter (OAuth1Provider__init__ (Some a)) c) t) g in
  let bound_later :=
    init_app (grantgetter (tokengetter (clientgetter (OAuth1Provider__init__ None) c) t) g)
      a in
  exists validator,
    server bound_first = inr (WebApplicationServer validator) /\
    server bound_later = inr (WebApplicationServer validator) /\
    _clientgetter validator = c /\ _tokengetter validator = t /\
    _grantgetter validator = g /\ _config validator = config a.
Proof.
  intros bound_first bound_later.
  exists (OAuth1RequestValidator__init__ c t g (Some (config a))).
  repeat split. simpl. by case_bool_decide.
Qed.

(** X3: setting up a provider does not depend on the order of its steps.
    Binding the application in the constructor or afterwards gives the same
    provider; registrations commute with each other and with [init_app];
    registering a getter again replaces the earlier one; [init_app] adds the
    provider's key to the application's extensions and keeps the rest. *)
Theorem provider_setup_commutes (self : OAuth1Provider) (a : App)
    (c c' : Store -> string -> option Client)
    (t g : Store -> string -> string -> option Token) :
  init_app (OAuth1Provider__init__ None) a = OAuth1Provider__init__ (Some a) /\
  clientgetter (init_app self a) c = init_app (clientgetter self c) a /\
  tokengetter (init_app self a) t = init_app (tokengetter self t) a /\
  grantgetter (init_app self a) g = init_app (grantgetter self g) a /\
  clientgetter (tokengetter self t) c = tokengetter (clientgetter self c) t /\
  clientgetter (grantgetter self g) c = grantgetter (clientgetter self c) g /\
  tokengetter (grantgetter self g) t = grantgetter (tokengetter self t) g /\
  clientgetter (clientgetter self c) c' = clientgetter self c' /\
  (exists a', app (init_app self a) = Some a' /\ config a' = config a /\
     "oauthlib.provider.oauth1" ∈ extensions a' /\ extensions a ⊆ extensions a').
Proof.
  repeat split. eexists. repeat split; simpl; set_solver.
Qed.

(** X4: the server is built once. After an access to [server] that
    returned, every later access returns the same server, whatever was
    registered or bound on the provider in between. The first access
    returns what the body computes, and the body would compute the same
    server again from the attributes it leaves. An access that raises
    leaves the instance as it was. *)
Theorem server_is_built_once (self : ProviderObject) :
  (forall srv self',
     server_property self = (inr srv, self') ->
     (forall change,
        server_property (update_attributes change self')
        = (inr srv, update_attributes change self')) /\
     (cached_server self = None ->
        server (attributes self) = inr srv /\ server (attributes self') = inr srv)) /\
  (forall e self',
     server_property self = (inl e, self') ->
     self' = self /\ cached_server self = None /\ server (attributes self) = inl e).
Proof.
  unfold server_property, server.
  destruct self as [this cache]. simpl.
  destruct cache as [value|].
  { split; [intros srv self' [= <- <-]|intros e self' [=]].
    split; [done|]. intros [=]. }
  destruct (provider_validator this) as [v|] eqn:Hv.
  { split; [intros srv self' [= <- <-]|intros e self' [=]].
    split; [done|]. intros _. simpl. by rewrite Hv. }
  destruct (provider_clientgetter this) as [c|], (provider_tokengetter this) as [t|],
    (provider_grantgetter this) as [g|], (app this) as [a|];
    (split; [intros srv self' [= <- <-]|intros e self' [= <- <-]]);
    try done.
Qed.

(** ** Further properties: the views *)

(** A header after an assignment: the assigned name holds the value, every
    other spelling of that name is gone, the other names are untouched. *)
Lemma lookup_assign_header (k v : string) (headers : gmap string string) (j : string) :
  assign_header k v headers !! j
  = if decide (k = j) then Some v
    else if decide (lower j = lower k) then None
    else headers !! j.
Proof.
  unfold assign_header. rewrite lookup_insert. case_decide; [done|].
  rewrite map_lookup_filter.
  destruct (headers !! j) as [x|]; simpl; repeat case_guard;
    repeat case_decide; simpl in *; done.
Qed.

Lemma distinct_without_case_insert (i x : string) (m : gmap string string) :
  distinct_without_case (<[i:=x]> m) -> distinct_without_case m.
Proof.
  intros Hd k1 k2 H1 H2. apply Hd.
  - rewrite lookup_insert. by case_decide.
  - rewrite lookup_insert. by case_decide.
Qed.

(** Assigning the headers of a dict one by one to a response: each header
    of the dict ends up on the response, under its name and no other
    spelling of it, and the headers whose name is not in the dict stay. *)
Lemma set_headers_spec (body : string) (status : Z) (h0 headers : gmap string string) :
  distinct_without_case headers ->
  exists h,
    map_fold set_header (Responded body status h0) headers = Responded body status h /\
    (forall k v, headers !! k = Some v -> h !! k = Some v) /\
    (forall j, (forall k, is_Some (headers !! k) -> lower k <> lower j) ->
       h !! j = h0 !! j) /\
    (forall j k, is_Some (headers !! k) -> lower k = lower j -> j <> k ->
       h !! j = None).
Proof.
  revert headers.
  apply (map_fold_weak_ind (fun r m =>
    distinct_without_case m ->
    exists h, r = Responded body status h /\
      (forall k v, m !! k = Some v -> h !! k = Some v) /\
      (forall j, (forall k, is_Some (m !! k) -> lower k <> lower j) ->
         h !! j = h0 !! j) /\
      (forall j k, is_Some (m !! k) -> lower k = lower j -> j <> k ->
         h !! j = None))).
  - intros _. exists h0. split; [done|]. split; [|split].
    + intros k v. by rewrite lookup_empty.
    + done.
    + intros j k [v Hv]. by rewrite lookup_empty in Hv.
  - intros i x m r Hi IH Hd.
    destruct (IH (distinct_without_case_insert i x m Hd)) as (h & -> & H1 & H2 & H3).
    assert (Hkey : forall k, is_Some (m !! k) -> is_Some (<[i:=x]> m !! k)).
    { intros k Hk. rewrite lookup_insert. by case_decide. }
    assert (Hi' : is_Some (<[i:=x]> m !! i)) by (rewrite lookup_insert_eq; eauto).
    exists (assign_header i x h). split; [done|]. split; [|split].
    + intros k v Hk. rewrite lookup_assign_header.
      rewrite lookup_insert in Hk. case_decide as Hik; [done|].
      case_decide as Hlow.
      * destruct Hik. symmetry. apply Hd; [by apply Hkey; eauto|done|done].
      * by apply H1.
    + intros j Hj. rewrite lookup_assign_header.
      case_decide as Hij; [by destruct (Hj i Hi'); subst|].
      case_decide as Hlow; [by destruct (Hj i Hi')|].
      apply H2. intros k Hk. by apply Hj, Hkey.
    + intros j k Hk Hlow Hjk. rewrite lookup_assign_header.
      case_decide as Hij.
      * subst j. destruct Hjk. symmetry. by apply Hd.
      * case_decide as Hlowi; [done|].
        rewrite lookup_insert in Hk. case_decide as Hik; [by subst k|].
        by apply (H3 j k).
Qed.

(** X5: on a provider whose [server] raises, the authorization view, the
    request token view and [confirm_authorization_request] raise that
    exception at once: the wrapped function is not called and the world is
    untouched. The access token view does not use the server: it calls the
    wrapped function and hands back its value or its exception. *)
Theorem views_need_server (self : OAuth1Provider) (f : Handler)
    (request : FlaskRequest) (args : list PyVal) (kwargs : gmap string PyVal)
    (e : Exn) (w : World) :
  server self = inl e ->
  authorize_handler self f request args kwargs w = (Raise e, w) /\
  request_token_handler self f request args kwargs w = (Raise e, w) /\
  confirm_authorization_request self request w = (Raise e, w) /\
  access_token_handler self f request args kwargs w
  = match f args kwargs {| store := store w; calls := calls w ++ [HandlerCall] |} with
    | (Return v, w') => (Return (Handled v), w')
    | (Raise x, w') => (Raise x, w')
    end.
Proof.
  intros Hsrv.
  unfold authorize_handler, request_token_handler, confirm_authorization_request,
    access_token_handler.
  rewrite Hsrv. run_M. simpl.
  repeat split.
Qed.

(** X6: on a GET, the authorization view calls the wrapped function with
    the caller's keyword arguments, to which it adds the token's realms
    under realms and then the credentials, a credential winning over a
    keyword of the same name; it returns what the function returns and
    passes on what it raises. *)
Theorem authorize_handler_get (self : OAuth1Provider) (f : Handler)
    (request : FlaskRequest) (args : list PyVal) (kwargs : gmap string PyVal)
    (srv : Server) (realms : list string) (credentials : gmap string PyVal)
    (w w1 : World) :
  server self = inr srv ->
  flask_method request = "GET" ->
  server_call "get_realms_and_credentials"
    (get_realms_and_credentials srv (flask_url request) (flask_method request)
       (flask_data request) (flask_headers request)) w
  = (Return (realms, credentials), w1) ->
  let kwargs' := credentials ∪ <["realms" := PyList (PyStr <$> realms)]> kwargs in
  authorize_handler self f request args kwargs w
  = match call_handler f args kwargs' w1 with
    | (Return v, w2) => (Return (Handled v), w2)
    | (Raise x, w2) => (Raise x, w2)
    end /\
  (forall k v, credentials !! k = Some v -> kwargs' !! k = Some v) /\
  (credentials !! "realms" = None ->
   kwargs' !! "realms" = Some (PyList (PyStr <$> realms))) /\
  (forall k, credentials !! k = None -> k <> "realms" -> kwargs' !! k = kwargs !! k).
Proof.
  intros Hsrv Hget Hrealms kwargs'. subst kwargs'.
  split; [|split; [|split]].
  - unfold authorize_handler.
    destruct (_extract_params request) as [[[uri http_method] body] headers].
    rewrite Hsrv. change (lift (inr srv)) with (mret (M := M) srv).
    unfold mbind at 1, M_bind, mret at 1, M_ret.
    unfold mbind at 1, M_bind. rewrite Hrealms. rewrite Hget.
    rewrite (bool_decide_eq_true_2 ("GET" = "GET")) by done.
    unfold mbind at 1, M_bind.
    by destruct (call_handler f args _ w1) as [[v|x] w2].
  - intros k v Hk. by apply lookup_union_Some_l.
  - intros Hk. rewrite lookup_union_r by done. by rewrite lookup_insert_eq.
  - intros k Hk Hne. rewrite lookup_union_r by done. by rewrite lookup_insert_ne.
Qed.

(** X7: for a method that is neither GET nor POST the authorization view
    looks up the realms and then returns [None]: the wrapped function is
    not called and no authorization response is created. *)
Theorem authorize_handler_other_method (self : OAuth1Provider) (f : Handler)
    (request : FlaskRequest) (args : list PyVal) (kwargs : gmap string PyVal)
    (srv : Server) (realms : list string) (credentials : gmap string PyVal)
    (w w1 : World) :
  server self = inr srv ->
  flask_method request <> "GET" ->
  flask_method request <> "POST" ->
  server_call "get_realms_and_credentials"
    (get_realms_and_credentials srv (flask_url request) (flask_method request)
       (flask_data request) (flask_headers request)) w
  = (Return (realms, credentials), w1) ->
  authorize_handler self f request args kwargs w = (Return (Handled PyNone), w1).
Proof.
  intros Hsrv Hget Hpost Hrealms.
  unfold authorize_handler.
  destruct (_extract_params request) as [[[uri http_method] body] headers].
  rewrite Hsrv. change (lift (inr srv)) with (mret (M := M) srv).
  unfold mbind at 1, M_bind, mret at 1, M_ret.
  unfold mbind at 1, M_bind. rewrite Hrealms.
  by rewrite !bool_decide_eq_false_2.
Qed.

(** X8: the lookup of the realms at the start of the authorization view
    stands outside every [try]: what it raises, an [OAuth1Error] included,
    leaves the view as it is, whatever the method and whether or not the
    request carries a redirect_uri, and the wrapped function is not
    called. *)
Theorem authorize_handler_realms_error_propagates (self : OAuth1Provider)
    (f : Handler) (request : FlaskRequest) (args : list PyVal)
    (kwargs : gmap string PyVal) (srv : Server) (e : Exn) (w w1 : World) :
  server self = inr srv ->
  server_call "get_realms_and_credentials"
    (get_realms_and_credentials srv (flask_url request) (flask_method request)
       (flask_data request) (flask_headers request)) w
  = (Raise e, w1) ->
  authorize_handler self f request args kwargs w = (Raise e, w1).
Proof.
  intros Hsrv Hrealms.
  unfold authorize_handler.
  destruct (_extract_params request) as [[[uri http_method] body] headers].
  rewrite Hsrv. change (lift (inr srv)) with (mret (M := M) srv).
  unfold mbind at 1, M_bind, mret at 1, M_ret.
  unfold mbind at 1, M_bind. by rewrite Hrealms.
Qed.

(** X9: on a POST for which the wrapped function returns a true value, the
    authorization view asks the server for the authorization response with
    an empty list of realms and no credentials, whatever the lookup at its
    start returned, and redirects to the first component of the answer. *)
Theorem authorize_handler_approved (self : OAuth1Provider) (f : Handler)
    (request : FlaskRequest) (args : list PyVal) (kwargs : gmap string PyVal)
    (srv : Server) (uri http_method body : string) (headers : gmap string string)
    (realms : list string) (credentials : gmap string PyVal) (v : PyVal)
    (ret : string * gmap string string * string * Z) (w w1 w2 w3 : World) :
  server self = inr srv ->
  _extract_params request = (uri, http_method, body, headers) ->
  flask_method request = "POST" ->
  server_call "get_realms_and_credentials"
    (get_realms_and_credentials srv (flask_url request) (flask_method request)
       (flask_data request) (flask_headers request)) w
  = (Return (realms, credentials), w1) ->
  call_handler f args kwargs w1 = (Return v, w2) ->
  truthy v = true ->
  server_call "create_authorization_response"
    (create_authorization_response srv uri http_method body headers [] ∅) w2
  = (Return ret, w3) ->
  authorize_handler self f request args kwargs w
  = (Return (redirect ret.1.1.1), w3).
Proof.
  intros Hsrv Hparams Hpost Hrealms Hf Hv Hcall.
  assert (Hconfirm : confirm_authorization_request self request w2
                     = (Return (redirect ret.1.1.1), w3)).
  { unfold confirm_authorization_request. rewrite Hsrv, Hparams.
    change (lift (inr srv)) with (mret (M := M) srv).
    unfold mbind at 1, M_bind, mret at 1, M_ret.
    unfold try_except_OAuth1Error. unfold mbind at 1, M_bind.
    by rewrite Hcall. }
  unfold authorize_handler. rewrite Hsrv, Hparams.
  change (lift (inr srv)) with (mret (M := M) srv).
  unfold mbind at 1, M_bind, mret at 1, M_ret.
  unfold mbind at 1, M_bind. rewrite Hrealms. rewrite Hpost.
  rewrite (bool_decide_eq_false_2 ("POST" = "GET")) by done.
  rewrite (bool_decide_eq_true_2 ("POST" = "POST")) by done.
  unfold mbind at 1, M_bind. rewrite Hf, Hv. simpl negb. cbv iota.
  exact Hconfirm.
Qed.

(** X10: when the server answers the request token view with headers whose
    names stay different without case, the view's response has the answer's
    body and status, and its headers are those Flask gave the new response
    with the answer's headers assigned over them: each header of the answer
    is on the response under its name and no other spelling of it, and the
    headers the answer does not name are as Flask made them. The answer's
    uri is dropped. *)
Theorem request_token_handler_responds (self : OAuth1Provider) (f : Handler)
    (request : FlaskRequest) (args : list PyVal) (kwargs : gmap string PyVal)
    (srv : Server) (uri http_method body : string) (headers : gmap string string)
    (credentials : PyVal) (uri' body' : string) (headers' : gmap string string)
    (status : Z) (w w1 w2 : World) :
  server self = inr srv ->
  _extract_params request = (uri, http_method, body, headers) ->
  call_handler f args kwargs w = (Return credentials, w1) ->
  server_call "create_request_token_response"
    (create_request_token_response srv uri http_method body headers credentials) w1
  = (Return (uri', headers', body', status), w2) ->
  distinct_without_case headers' ->
  exists response_headers,
    request_token_handler self f request args kwargs w
    = (Return (Responded body' status response_headers), w2) /\
    (forall k v, headers' !! k = Some v -> response_headers !! k = Some v) /\
    (forall j, (forall k, is_Some (headers' !! k) -> lower k <> lower j) ->
       response_headers !! j = initial_headers body' status !! j) /\
    (forall j k, is_Some (headers' !! k) -> lower k = lower j -> j <> k ->
       response_headers !! j = None).
Proof.
  intros Hsrv Hparams Hf Hcall Hdistinct.
  destruct (set_headers_spec body' status (initial_headers body' status) headers'
              Hdistinct) as (h & Hfold & H1 & H2 & H3).
  exists h. split; [|done].
  unfold request_token_handler. rewrite Hsrv, Hparams.
  change (lift (inr srv)) with (mret (M := M) srv).
  unfold mbind at 1, M_bind, mret at 1, M_ret.
  unfold mbind at 1, M_bind. rewrite Hf.
  unfold try_except_OAuth1Error. unfold mbind at 1, M_bind.
  rewrite Hcall. unfold mret, M_ret, make_response. by rewrite Hfold.
Qed.

(** X11: only an [OAuth1Error] raised inside the [try] is turned into a
    redirect. An exception of the wrapped function of the request token
    view (raised before the [try], so the server is not called) and any
    other exception of the server's endpoints leave the views unchanged. *)
Theorem other_errors_leave_the_views (self : OAuth1Provider) (f : Handler)
    (request : FlaskRequest) (args : list PyVal) (kwargs : gmap string PyVal)
    (srv : Server) (uri http_method body : string) (headers : gmap string string) :
  server self = inr srv ->
  _extract_params request = (uri, http_method, body, headers) ->
  (forall x w w1,
     call_handler f args kwargs w = (Raise x, w1) ->
     request_token_handler self f request args kwargs w = (Raise x, w1)) /\
  (forall credentials x w w1 w2,
     call_handler f args kwargs w = (Return credentials, w1) ->
     server_call "create_request_token_response"
       (create_request_token_response srv uri http_method body headers credentials) w1
     = (Raise x, w2) ->
     (forall e, x <> OAuth1Exn e) ->
     request_token_handler self f request args kwargs w = (Raise x, w2)) /\
  (forall x w w2,
     server_call "create_authorization_response"
       (create_authorization_response srv uri http_method body headers [] ∅) w
     = (Raise x, w2) ->
     (forall e, x <> OAuth1Exn e) ->
     confirm_authorization_request self request w = (Raise x, w2)).
Proof.
  intros Hsrv Hparams. split; [|split].
  - intros x w w1 Hf.
    unfold request_token_handler. rewrite Hsrv, Hparams.
    change (lift (inr srv)) with (mret (M := M) srv).
    unfold mbind at 1, M_bind, mret at 1, M_ret.
    unfold mbind at 1, M_bind. by rewrite Hf.
  - intros credentials x w w1 w2 Hf Hcall Hother.
    unfold request_token_handler. rewrite Hsrv, Hparams.
    change (lift (inr srv)) with (mret (M := M) srv).
    unfold mbind at 1, M_bind, mret at 1, M_ret.
    unfold mbind at 1, M_bind. rewrite Hf.
    unfold try_except_OAuth1Error. unfold mbind at 1, M_bind.
    rewrite Hcall. destruct x; try done. by destruct (Hother e).
  - intros x w w2 Hcall Hother.
    unfold confirm_authorization_request. rewrite Hsrv, Hparams.
    change (lift (inr srv)) with (mret (M := M) srv).
    unfold mbind at 1, M_bind, mret at 1, M_ret.
    unfold try_except_OAuth1Error. unfold mbind at 1, M_bind.
    rewrite Hcall. destruct x; try done. by destruct (Hother e).
Qed.

(** X12: once an [OAuth1Error] is caught, the outcome of the request token
    view and of [confirm_authorization_request] is the outcome of
    [in_uri] on the request's redirect_uri value, present or not: a
    redirect to the location it returns, or the exception it raises. No
    other target is tried. *)
Theorem caught_error_outcome (self : OAuth1Provider) (f : Handler)
    (request : FlaskRequest) (args : list PyVal) (kwargs : gmap string PyVal)
    (srv : Server) (uri http_method body : string) (headers : gmap string string)
    (e : OAuth1Error) :
  server self = inr srv ->
  _extract_params request = (uri, http_method, body, headers) ->
  let outcome :=
    match in_uri e (flask_values request !! "redirect_uri") with
    | inr location => Return (redirect location)
    | inl x => Raise x
    end in
  (forall credentials w w1 w2,
     call_handler f args kwargs w = (Return credentials, w1) ->
     server_call "create_request_token_response"
       (create_request_token_response srv uri http_method body headers credentials) w1
     = (Raise (OAuth1Exn e), w2) ->
     request_token_handler self f request args kwargs w = (outcome, w2)) /\
  (forall w w2,
     server_call "create_authorization_response"
       (create_authorization_response srv uri http_method body headers [] ∅) w
     = (Raise (OAuth1Exn e), w2) ->
     confirm_authorization_request self request w = (outcome, w2)).
Proof.
  intros Hsrv Hparams outcome. subst outcome. split.
  - intros credentials w w1 w2 Hf Hcall.
    unfold request_token_handler. rewrite Hsrv, Hparams.
    change (lift (inr srv)) with (mret (M := M) srv).
    unfold mbind at 1, M_bind, mret at 1, M_ret.
    unfold mbind at 1, M_bind. rewrite Hf.
    unfold try_except_OAuth1Error. unfold mbind at 1, M_bind.
    rewrite Hcall.
    by destruct (in_uri e (flask_values request !! "redirect_uri")).
  - intros w w2 Hcall.
    unfold confirm_authorization_request. rewrite Hsrv, Hparams.
    change (lift (inr srv)) with (mret (M := M) srv).
    unfold mbind at 1, M_bind, mret at 1, M_ret.
    unfold try_except_OAuth1Error. unfold mbind at 1, M_bind.
    rewrite Hcall.
    by destruct (in_uri e (flask_values request !! "redirect_uri")).
Qed.

(** ** Further properties: the request validator *)

(** The configuration a validator keeps is the one it was given. *)
Lemma config_of_init (c : Store -> string -> option Client)
    (t g : Store -> string -> string -> option Token) (cfg : gmap string PyVal) :
  _config (OAuth1RequestValidator__init__ c t g (Some cfg)) = cfg.
Proof. simpl. by case_bool_decide. Qed.

(** X13: [get_default_realms] returns the client's default realms, and the
    empty list when the client getter finds nothing or the client has no
    default realms. It asks the client getter each time, also when the
    request already carries a client. *)
Theorem get_default_realms_cases (self : OAuth1RequestValidator)
    (client_key : string) (request : OAuthRequest) (w : World) :
  let w' := {| store := store w; calls := calls w ++ [ClientGetterCall client_key] |} in
  (_clientgetter self (store w) client_key = None ->
   get_default_realms self client_key request w = (Return [], w')) /\
  (forall c, _clientgetter self (store w) client_key = Some c ->
   default_realms c = None ->
   get_default_realms self client_key request w = (Return [], w')) /\
  (forall c rs, _clientgetter self (store w) client_key = Some c ->
   default_realms c = Some rs ->
   get_default_realms self client_key request w = (Return rs, w')) /\
  (forall cached,
   get_default_realms self client_key (set_client request cached) w
   = get_default_realms self client_key request w).
Proof.
  intros w'. subst w'. unfold get_default_realms. run_M. simpl.
  repeat split.
  - by intros ->.
  - intros c -> Hnone. simpl. by rewrite Hnone.
  - intros c rs -> Hsome. simpl. by rewrite Hsome.
Qed.

(** X14: every lookup of the validator reads and writes nothing else: it
    leaves the storage as it was and makes exactly one call, to the client
    getter for a client, to the grant getter for a request token and to the
    token getter for an access token. *)
Theorem validator_lookups_read_only (self : OAuth1RequestValidator)
    (client_key token : string) (redirect_uri : option string)
    (request : OAuthRequest) (w : World) :
  let after (ev : Event) := {| store := store w; calls := calls w ++ [ev] |} in
  (validate_client_key self client_key request w).2
  = after (ClientGetterCall client_key) /\
  (validate_redirect_uri self client_key redirect_uri request w).2
  = after (ClientGetterCall client_key) /\
  (get_default_realms self client_key request w).2
  = after (ClientGetterCall client_key) /\
  (validate_request_token self client_key token request w).2
  = after (GrantGetterCall client_key token) /\
  (get_request_token_secret self client_key token request w).2
  = after (GrantGetterCall client_key token) /\
  (validate_access_token self client_key token request w).2
  = after (TokenGetterCall client_key token) /\
  (get_access_token_secret self client_key token request w).2
  = after (TokenGetterCall client_key token).
Proof.
  intros after. subst after.
  unfold validate_client_key, validate_redirect_uri, get_default_realms,
    validate_request_token, get_request_token_secret, validate_access_token,
    get_access_token_secret.
  run_M. simpl.
  repeat split.
  - by destruct (_clientgetter self (store w) client_key).
  - destruct (_clientgetter self (store w) client_key) as [c|]; [|done].
    by destruct (_ && _).
  - destruct (_clientgetter self (store w) client_key) as [c|]; [|done].
    simpl. by destruct (default_realms c).
  - by destruct (_grantgetter self (store w) client_key token).
  - by destruct (_grantgetter self (store w) client_key token).
  - by destruct (_tokengetter self (store w) client_key token).
  - by destruct (_tokengetter self (store w) client_key token).
Qed.

(** X15: [get_client_secret] remembers a client it found, not a miss. Called
    twice on the same request object, it asks the client getter once when
    the client exists and twice when it does not. *)
Theorem get_client_secret_miss_not_cached (self : OAuth1RequestValidator)
    (client_key : string) (request : OAuthRequest) (w : World) :
  client request = None ->
  let twice : M (string * string * OAuthRequest) :=
    '(s1, request1) ← get_client_secret self client_key request;
    '(s2, request2) ← get_client_secret self client_key request1;
    mret (s1, s2, request2) in
  (forall c, _clientgetter self (store w) client_key = Some c ->
   twice w
   = (Return (client_secret c, client_secret c, set_client request (Some c)),
      {| store := store w; calls := calls w ++ [ClientGetterCall client_key] |})) /\
  (_clientgetter self (store w) client_key = None ->
   twice w
   = (Return ("", "", request),
      {| store := store w;
         calls := (calls w ++ [ClientGetterCall client_key])
                  ++ [ClientGetterCall client_key] |})).
Proof.
  intros Hreq twice. subst twice.
  unfold get_client_secret. run_M. rewrite Hreq. simpl. split.
  - intros c Hc. by rewrite Hc.
  - intros Hc. rewrite Hc. simpl. rewrite Hc. simpl.
    by rewrite <- Hreq, !set_client_same.
Qed.

(** X16: the options of the validator are independent. One built without a
    configuration allows the signature methods HMAC-SHA1 and RSA-SHA1, has
    no realms and enforces SSL; configuring the key length changes the five
    lengths to the configured value and none of these three options,
    whatever else is configured. *)
Theorem configuration_options_independent
    (c : Store -> string -> option Client)
    (t g : Store -> string -> string -> option Token)
    (cfg : gmap string PyVal) (bounds : PyVal) :
  let unconfigured := OAuth1RequestValidator__init__ c t g None in
  let before := OAuth1RequestValidator__init__ c t g (Some cfg) in
  let self := OAuth1RequestValidator__init__ c t g
                (Some (<["OAUTH1_PROVIDER_KEY_LENGTH" := bounds]> cfg)) in
  (allowed_signature_methods unconfigured
   = PyTuple [PyStr "HMAC-SHA1"; PyStr "RSA-SHA1"] /\
   realms unconfigured = PyList [] /\ enforce_ssl unconfigured = PyBool true) /\
  (verifier_length self = bounds /\ reqeust_token_length self = bounds /\
   access_token_length self = bounds /\ client_key_length self = bounds /\
   nonce_length self = bounds) /\
  (allowed_signature_methods self = allowed_signature_methods before /\
   realms self = realms before /\ enforce_ssl self = enforce_ssl before).
Proof.
  intros unconfigured before self.
  split; [by repeat split|].
  unfold verifier_length, reqeust_token_length, access_token_length,
    client_key_length, nonce_length, allowed_signature_methods, realms,
    enforce_ssl, config_get.
  subst self before. rewrite !config_of_init.
  rewrite lookup_insert_eq, !lookup_insert_ne by done.
  by repeat split.
Qed.

(** X17: the checks agree with the secret getters. In one state of the
    storage, a key that [validate_client_key], [validate_request_token] or
    [validate_access_token] accepts has its secret returned by the matching
    secret getter (for the client: on a request that carries no client
    yet), and a key the check rejects reads as the empty secret. *)
Theorem checks_agree_with_secret_getters (self : OAuth1RequestValidator)
    (client_key token : string) (request : OAuthRequest) (w : World) :
  client request = None ->
  ((validate_client_key self client_key request w).1 = Return true ->
   exists c, _clientgetter self (store w) client_key = Some c /\
     (get_client_secret self client_key request w).1
     = Return (client_secret c, set_client request (Some c))) /\
  ((validate_client_key self client_key request w).1 = Return false ->
   (get_client_secret self client_key request w).1 = Return ("", request)) /\
  ((validate_request_token self client_key token request w).1 = Return true ->
   exists tok, _grantgetter self (store w) client_key token = Some tok /\
     (get_request_token_secret self client_key token request w).1
     = Return (secret tok)) /\
  ((validate_request_token self client_key token request w).1 = Return false ->
   (get_request_token_secret self client_key token request w).1 = Return "") /\
  ((validate_access_token self client_key token request w).1 = Return true ->
   exists tok, _tokengetter self (store w) client_key token = Some tok /\
     (get_access_token_secret self client_key token request w).1
     = Return (secret tok)) /\
  ((validate_access_token self client_key token request w).1 = Return false ->
   (get_access_token_secret self client_key token request w).1 = Return "").
Proof.
  intros Hreq.
  unfold validate_client_key, validate_request_token, validate_access_token,
    get_client_secret, get_request_token_secret, get_access_token_secret.
  run_M. rewrite Hreq. simpl.
  destruct (_clientgetter self (store w) client_key) as [c|],
    (_grantgetter self (store w) client_key token) as [rt|],
    (_tokengetter self (store w) client_key token) as [at_|]; simpl;
    repeat split; try discriminate; eauto;
    intros _; by rewrite <- Hreq, set_client_same.
Qed.

End OAuth1.

(** ** The scenario, run *)

(** [scopes] and [abort] are bound nowhere around [decorated] of
    [require_oauth], nor is [realm] in [validate_realm]; [redirect] and
    [request], which the module imports, are. *)
Example unbound_names :
  name_is_bound require_oauth_scope "scopes" = false /\
  name_is_bound require_oauth_scope "abort" = false /\
  name_is_bound validate_realm_scope "realm" = false /\
  name_is_bound require_oauth_scope "redirect" = true /\
  name_is_bound validate_realm_scope "request" = true.
Proof. repeat split. Qed.

(** The same nonce and timestamp presented twice for client abc and access
    token tok2: accepted both times; a timestamp of 0 is accepted too. *)
Example replayed_nonce_accepted :
  let w := {| store := tt; calls := [] |} in
  let present :=
    validate_timestamp_and_nonce scenario_validator "abc" 1383000000 "n1"
      signed_request None (Some "tok2") in
  (first ← present; second ← present; mret (first, second)) w
  = (Return (true, true), w) /\
  validate_timestamp_and_nonce scenario_validator "abc" 0 "n1" signed_request None
    (Some "tok2") w = (Return true, w).
Proof. split; reflexivity. Qed.

(** A verifier that is not the one bound to tok1 is accepted, and the
    access token view only calls the wrapped function. *)
Example wrong_verifier_accepted :
  let w := {| store := tt; calls := [] |} in
  validate_verifier scenario_validator "abc" "tok1" "not-ver1" signed_request w
  = (Return true, w) /\
  access_token_handler scenario_provider approve consent_post [] ∅ w
  = (Return (Handled (PyBool true)), {| store := tt; calls := [HandlerCall] |}).
Proof. split; reflexivity. Qed.

(** A view protected with the realm email, called for an access token
    without realms, on a server without a method [verify_request] and on
    one that has it: an exception both times, and neither the server nor
    the view was called. *)
Example require_oauth_scenario :
  let w := {| store := tt; calls := [] |} in
  require_oauth (Store := unit) None sample_extract_params
    scenario_provider ["email"] approve consent_post [] ∅ w
  = (Raise (AttributeError "verify_request"), w) /\
  require_oauth (Store := unit) (Some sample_verify_request) sample_extract_params
    scenario_provider ["email"] approve consent_post [] ∅ w
  = (Raise (NameError "scopes"), w).
Proof. split; reflexivity. Qed.

(** [validate_redirect_uri] on the scenario's client: the registered URI is
    accepted, another one and a missing one are not. *)
Example validate_redirect_uri_scenario :
  let w := {| store := tt; calls := [] |} in
  (validate_redirect_uri scenario_validator "abc" (Some "http://client.example/cb")
     signed_request w).1 = Return true /\
  (validate_redirect_uri scenario_validator "abc" (Some "http://evil.example/")
     signed_request w).1 = Return false /\
  (validate_redirect_uri scenario_validator "abc" None signed_request w).1
  = Return false /\
  (validate_redirect_uri scenario_validator "nobody" None signed_request w).1
  = Return false.
Proof. repeat split. Qed.

(** The predicates on a client and on tokens nobody registered. *)
Lemma validator_predicates_return_bool_witness :
  let w := {| store := tt; calls := [] |} in
  (validate_client_key scenario_validator "nobody" signed_request w).1 = Return false /\
  (validate_request_token scenario_validator "abc" "tok9" signed_request w).1
  = Return false /\
  (validate_access_token scenario_validator "abc" "tok9" signed_request w).1
  = Return false.
Proof.
  intros w.
  destruct (validator_predicates_return_bool scenario_validator "nobody" "tok9"
              signed_request w) as [[b1 [H1 N1]] _].
  destruct (validator_predicates_return_bool scenario_validator "abc" "tok9"
              signed_request w) as [_ [[b2 [H2 N2]] [b3 [H3 N3]]]].
  rewrite H1, H2, H3, (N1 eq_refl), (N2 eq_refl), (N3 eq_refl).
  repeat split.
Defined.

(** The secrets of an unknown request token and of the known one. *)
Lemma secret_getters_empty_when_missing_witness :
  let w := {| store := tt; calls := [] |} in
  (get_request_token_secret scenario_validator "abc" "tok9" signed_request w).1
  = Return "" /\
  (get_request_token_secret scenario_validator "abc" "tok1" signed_request w).1
  = Return "sek1" /\
  (get_client_secret scenario_validator "nobody" signed_request w).1
  = Return ("", signed_request).
Proof.
  intros w.
  pose proof (secret_getters_empty_when_missing scenario_validator "abc" "tok9"
                signed_request w) as [Hnone _].
  pose proof (secret_getters_empty_when_missing scenario_validator "abc" "tok1"
                signed_request w) as [_ [Hsome _]].
  pose proof (secret_getters_empty_when_missing scenario_validator "nobody" "tok1"
                signed_request w) as [_ [_ [_ [_ [Hclient _]]]]].
  split; [exact (Hnone eq_refl)|].
  split; [exact (Hsome tok1 eq_refl)|].
  exact (Hclient eq_refl eq_refl).
Defined.

(** [get_client_secret] with the client cached on the request, and without. *)
Lemma get_client_secret_memoizes_witness :
  let w := {| store := tt; calls := [] |} in
  let cached := set_client signed_request (Some client_abc) in
  get_client_secret scenario_validator "abc" cached w = (Return ("xyz", cached), w) /\
  exists s request',
    get_client_secret scenario_validator "abc" signed_request w
    = (Return (s, request'), {| store := tt; calls := [ClientGetterCall "abc"] |}) /\
    client request' = Some client_abc.
Proof.
  intros w cached. split.
  - exact (proj1 (get_client_secret_memoizes scenario_validator "abc" cached w)
             client_abc eq_refl).
  - destruct (proj2 (get_client_secret_memoizes scenario_validator "abc"
                       signed_request w) eq_refl)
      as (s & request' & Hrun & Hclient & _).
    exists s, request'. split; [exact Hrun | exact Hclient].
Defined.

(** The request token view, when the server refuses the client. *)
Lemma protocol_errors_become_redirects_witness :
  request_token_handler (Store := unit) sample_initial_headers
    sample_failing_request_token_response
    sample_in_uri sample_extract_params scenario_provider approve consent_post [] ∅
    {| store := tt; calls := [] |}
  = (Return (redirect "http://client.example/cb?error=invalid_client"),
     {| store := tt;
        calls := [HandlerCall; ServerCall "create_request_token_response"] |}).
Proof.
  eapply (proj1 (protocol_errors_become_redirects
                   sample_initial_headers
                   sample_get_realms_and_credentials
                   sample_failing_authorization_response
                   sample_failing_request_token_response
                   sample_add_params_to_uri sample_in_uri sample_extract_params
                   scenario_provider approve consent_post [] ∅
                   _ _ _ _ _ invalid_client "http://client.example/cb" _
                   eq_refl eq_refl eq_refl eq_refl)).
  - reflexivity.
  - reflexivity.
Defined.

(** The authorization view on a provider built by the class's own methods,
    when the owner denies. *)
Lemma authorize_handler_denied_witness :
  authorize_handler (Store := unit) sample_get_realms_and_credentials
    sample_failing_authorization_response sample_add_params_to_uri sample_in_uri
    sample_extract_params scenario_provider deny consent_post [] ∅
    {| store := tt; calls := [] |}
  = (Raise (AttributeError "error_uri"),
     {| store := tt;
        calls := [ServerCall "get_realms_and_credentials"; HandlerCall] |}).
Proof.
  eapply (authorize_handler_denied
            sample_get_realms_and_credentials sample_failing_authorization_response
            sample_add_params_to_uri sample_in_uri sample_extract_params
            scenario_provider deny consent_post [] ∅).
  - reflexivity.
  - reflexivity.
  - reflexivity.
  - reflexivity.
  - reflexivity.
Defined.

(** ** The further properties, run on the scenario *)

(** A provider bound to the application but given no getter. *)
Lemma server_available_iff_witness :
  server (Store := unit) (OAuth1Provider__init__ (Some scenario_app))
  = inl (RuntimeError "application not bound to required getters").
Proof.
  apply (proj1 (proj2 (server_available_iff
                         (OAuth1Provider__init__ (Some scenario_app)))));
    [reflexivity | left; reflexivity].
Defined.

(** After the first access to the server, a client getter that knows nobody
    is registered: the server still looks clients up with the first one. *)
Lemma server_is_built_once_witness :
  let fresh := {| attributes := scenario_provider (Store := unit);
                  cached_server := None |} in
  let forget := update_attributes (fun p => clientgetter p (fun _ _ => None)) in
  exists srv used,
    server_property fresh = (inr srv, used) /\
    server_property (forget used) = (inr srv, forget used) /\
    _clientgetter (request_validator srv) = scenario_clientgetter.
Proof.
  intros fresh forget.
  destruct (server_property fresh) as [[e|srv] used] eqn:Hfirst; [discriminate|].
  exists srv, used. split; [reflexivity|]. split.
  - exact (proj1 (proj1 (server_is_built_once fresh) srv used Hfirst) _).
  - by injection Hfirst as <- _.
Defined.

(** The views of a provider without getters. *)
Lemma views_need_server_witness :
  let unbound := OAuth1Provider__init__ (Store := unit) (Some scenario_app) in
  let w := {| store := tt; calls := [] |} in
  request_token_handler sample_initial_headers sample_request_token_response
    sample_in_uri sample_extract_params unbound approve consent_post [] ∅ w
  = (Raise (RuntimeError "application not bound to required getters"), w) /\
  access_token_handler unbound approve consent_post [] ∅ w
  = (Return (Handled (PyBool true)), {| store := tt; calls := [HandlerCall] |}).
Proof.
  intros unbound w.
  destruct (views_need_server sample_initial_headers
              sample_get_realms_and_credentials
              sample_authorization_response sample_request_token_response
              sample_add_params_to_uri sample_in_uri sample_extract_params
              unbound approve consent_post [] ∅
              (RuntimeError "application not bound to required getters") w eq_refl)
    as (_ & Htoken & _ & Haccess).
  split; [exact Htoken | exact Haccess].
Defined.

(** The consent page is shown the realms of the token. *)
Lemma authorize_handler_get_witness :
  authorize_handler (Store := unit) sample_realms_of_token
    sample_authorization_response sample_add_params_to_uri sample_in_uri
    sample_extract_params scenario_provider show_realms consent_get [] ∅
    {| store := tt; calls := [] |}
  = (Return (Handled (PyList [PyStr "email"])),
     {| store := tt;
        calls := [ServerCall "get_realms_and_credentials"; HandlerCall] |}).
Proof.
  eapply eq_trans.
  - eapply (proj1 (authorize_handler_get sample_realms_of_token
                     sample_authorization_response sample_add_params_to_uri
                     sample_in_uri sample_extract_params scenario_provider
                     show_realms consent_get [] ∅ _ _ _ _ _
                     eq_refl eq_refl eq_refl)).
  - reflexivity.
Defined.

(** A PUT on the authorization view. *)
Lemma authorize_handler_other_method_witness :
  authorize_handler (Store := unit) sample_realms_of_token
    sample_authorization_response sample_add_params_to_uri sample_in_uri
    sample_extract_params scenario_provider approve consent_put [] ∅
    {| store := tt; calls := [] |}
  = (Return (Handled PyNone),
     {| store := tt; calls := [ServerCall "get_realms_and_credentials"] |}).
Proof.
  eapply (authorize_handler_other_method sample_realms_of_token
            sample_authorization_response sample_add_params_to_uri sample_in_uri
            sample_extract_params scenario_provider approve consent_put [] ∅).
  - reflexivity.
  - discriminate.
  - discriminate.
  - reflexivity.
Defined.

(** The realms lookup refuses the client on a POST that carries a
    redirect_uri: the error is raised, not redirected. *)
Lemma authorize_handler_realms_error_propagates_witness :
  authorize_handler (Store := unit) sample_failing_realms
    sample_authorization_response sample_add_params_to_uri sample_in_uri
    sample_extract_params scenario_provider approve consent_post [] ∅
    {| store := tt; calls := [] |}
  = (Raise (OAuth1Exn invalid_client),
     {| store := tt; calls := [ServerCall "get_realms_and_credentials"] |}).
Proof.
  eapply (authorize_handler_realms_error_propagates sample_failing_realms
            sample_authorization_response sample_add_params_to_uri sample_in_uri
            sample_extract_params scenario_provider approve consent_post [] ∅).
  - reflexivity.
  - reflexivity.
Defined.

(** The owner approves. *)
Lemma authorize_handler_approved_witness :
  authorize_handler (Store := unit) sample_realms_of_token
    sample_authorization_response sample_add_params_to_uri sample_in_uri
    sample_extract_params scenario_provider approve consent_post [] ∅
    {| store := tt; calls := [] |}
  = (Return (redirect "http://client.example/cb?oauth_token=tok1&oauth_verifier=ver1"),
     {| store := tt;
        calls := [ServerCall "get_realms_and_credentials"; HandlerCall;
                  ServerCall "create_authorization_response"] |}).
Proof.
  eapply eq_trans.
  - eapply (authorize_handler_approved sample_realms_of_token
              sample_authorization_response sample_add_params_to_uri sample_in_uri
              sample_extract_params scenario_provider approve consent_post [] ∅);
      reflexivity.
  - reflexivity.
Defined.

(** The server issues a request token: the response carries the answer's
    content type in place of Flask's, and keeps Flask's length header. *)
Lemma request_token_handler_responds_witness :
  exists response_headers,
    request_token_handler (Store := unit) sample_initial_headers
      sample_request_token_response sample_in_uri
      sample_extract_params scenario_provider approve consent_post [] ∅
      {| store := tt; calls := [] |}
    = (Return (Responded "oauth_token=tok1&oauth_token_secret=sek1" 200
                 response_headers),
       {| store := tt;
          calls := [HandlerCall; ServerCall "create_request_token_response"] |}) /\
    response_headers !! "Content-Type" = Some "application/x-www-form-urlencoded" /\
    response_headers !! "Content-Length" = Some "n".
Proof.
  assert (Hkey : forall k,
            is_Some (({["Content-Type" := "application/x-www-form-urlencoded"]}
                        : gmap string string) !! k) ->
            k = "Content-Type").
  { intros k [v Hv]. by apply lookup_singleton_Some in Hv as [<- _]. }
  destruct (request_token_handler_responds (Store := unit) sample_initial_headers
              sample_request_token_response sample_in_uri
              sample_extract_params scenario_provider approve consent_post [] ∅
              _ _ _ _ _ _ _ _ _ _ {| store := tt; calls := [] |} _ _
              eq_refl eq_refl eq_refl eq_refl)
    as (h & Hrun & Hset & Hkeep & _).
  - intros k1 k2 H1 H2 _. by rewrite (Hkey k1 H1), (Hkey k2 H2).
  - exists h. split; [exact Hrun|]. split.
    + by apply Hset.
    + rewrite Hkeep; [done|]. intros k Hk. by rewrite (Hkey k Hk).
Defined.

(** The server's endpoint fails with an error that is no [OAuth1Error]. *)
Lemma other_errors_leave_the_views_witness :
  request_token_handler (Store := unit) sample_initial_headers
    sample_broken_request_token_response
    sample_in_uri sample_extract_params scenario_provider approve consent_post [] ∅
    {| store := tt; calls := [] |}
  = (Raise (OtherError "storage unavailable"),
     {| store := tt;
        calls := [HandlerCall; ServerCall "create_request_token_response"] |}).
Proof.
  eapply (proj1 (proj2 (other_errors_leave_the_views
                          sample_initial_headers
                          sample_authorization_response
                          sample_broken_request_token_response sample_in_uri
                          sample_extract_params scenario_provider approve
                          consent_post [] ∅ _ _ _ _ _ eq_refl eq_refl))).
  - reflexivity.
  - reflexivity.
  - discriminate.
Defined.

(** The server refuses the client and the request carries no redirect_uri:
    what [in_uri] raises leaves the view. *)
Lemma caught_error_outcome_witness :
  request_token_handler (Store := unit) sample_initial_headers
    sample_failing_request_token_response
    sample_in_uri sample_extract_params scenario_provider approve consent_put [] ∅
    {| store := tt; calls := [] |}
  = (Raise (OtherError "no uri"),
     {| store := tt;
        calls := [HandlerCall; ServerCall "create_request_token_response"] |}).
Proof.
  eapply (proj1 (caught_error_outcome
                   sample_initial_headers
                   sample_failing_authorization_response
                   sample_failing_request_token_response sample_in_uri
                   sample_extract_params scenario_provider approve consent_put [] ∅
                   _ _ _ _ _ invalid_client eq_refl eq_refl)).
  - reflexivity.
  - reflexivity.
Defined.

(** The default realms of the scenario's client and of an unknown one. *)
Lemma get_default_realms_cases_witness :
  let w := {| store := tt; calls := [] |} in
  (get_default_realms scenario_validator "abc" signed_request w).1 = Return [] /\
  (get_default_realms scenario_validator "nobody" signed_request w).1 = Return [].
Proof.
  intros w.
  pose proof (get_default_realms_cases scenario_validator "abc" signed_request w)
    as (_ & _ & Hsome & _).
  pose proof (get_default_realms_cases scenario_validator "nobody" signed_request w)
    as (Hnone & _).
  rewrite (Hsome client_abc [] eq_refl eq_refl), (Hnone eq_refl).
  by split.
Defined.

(** Two calls of [get_client_secret] for an unknown client. *)
Lemma get_client_secret_miss_not_cached_witness :
  ('(s1, request1) ← get_client_secret scenario_validator "nobody" signed_request;
   '(s2, request2) ← get_client_secret scenario_validator "nobody" request1;
   mret (s1, s2, request2)) {| store := tt; calls := [] |}
  = (Return ("", "", signed_request),
     {| store := tt;
        calls := [ClientGetterCall "nobody"; ClientGetterCall "nobody"] |}).
Proof.
  exact (proj2 (get_client_secret_miss_not_cached scenario_validator "nobody"
                  signed_request {| store := tt; calls := [] |} eq_refl) eq_refl).
Defined.

(** The checks and the secrets on the scenario's request token. *)
Lemma checks_agree_with_secret_getters_witness :
  let w := {| store := tt; calls := [] |} in
  exists tok,
    scenario_grantgetter tt "abc" "tok1" = Some tok /\
    (get_request_token_secret scenario_validator "abc" "tok1" signed_request w).1
    = Return (secret tok).
Proof.
  intros w.
  exact (proj1 (proj2 (proj2 (checks_agree_with_secret_getters scenario_validator
                                "abc" "tok1" signed_request w eq_refl)))
           eq_refl).
Defined.

(** C6 as stated fails. Both requests carry a redirect_uri. In the first the
    server refuses the client and answers itself with status 401: the
    request token view returns that answer, not a redirect. In the second
    the realms lookup at the start of the authorization view raises the
    [OAuth1Error]: it leaves the view. *)
Lemma validator_failure_without_redirect :
  let w := {| store := tt; calls := [] |} in
  let issuance :=
    request_token_handler (Store := unit) sample_initial_headers
      sample_refusing_request_token_response sample_in_uri sample_extract_params
      scenario_provider approve consent_post [] ∅ w in
  let authorization :=
    authorize_handler (Store := unit) sample_failing_realms
      sample_authorization_response sample_add_params_to_uri sample_in_uri
      sample_extract_params scenario_provider approve consent_post [] ∅ w in
  flask_values consent_post !! "redirect_uri" = Some "http://client.example/cb" /\
  issuance.1
  = Return (Responded "error=invalid_client" 401
              {["Content-Type" := "application/x-www-form-urlencoded";
                "Content-Length" := "n"]}) /\
  authorization.1 = Raise (OAuth1Exn invalid_client) /\
  (forall location, issuance.1 <> Return (redirect location)) /\
  (forall location, authorization.1 <> Return (redirect location)).
Proof.
  intros w issuance authorization.
  assert (Hissuance : issuance.1
            = Return (Responded "error=invalid_client" 401
                        {["Content-Type" := "application/x-www-form-urlencoded";
                          "Content-Length" := "n"]}))
    by (vm_compute; reflexivity).
  assert (Hauthorization : authorization.1 = Raise (OAuth1Exn invalid_client))
    by reflexivity.
  split; [reflexivity|]. split; [exact Hissuance|]. split; [exact Hauthorization|].
  split; intros location.
  - rewrite Hissuance. discriminate.
  - rewrite Hauthorization. discriminate.
Qed.
